(** * is_live.py: is a calendar event in progress right now?

    A shallow embedding of [scheduler/python/is_live.py] and the proofs of
    the properties its specification states about it.

    Python dictionaries are finite maps ([gmap]) keyed by strings, optional
    arguments and [dict.get] results are [option]s, exceptions are the
    [Raise] branch of [result], and everything the script does to the
    outside world (reading the configuration file, discovering credentials,
    listing events, printing) is threaded through an explicit [world] whose
    [log] records the effects in the order they happen. *)

From Stdlib Require Import ZArith String Ascii List Bool Lia.
From stdpp Require Import base option gmap strings list.

Local Open Scope string_scope.
Local Open Scope Z_scope.

(** ** Exceptions and results *)

Inductive exn : Type :=
| SystemExit (msg : string)          (* raise SystemExit(msg) *)
| FileNotFoundError (path : string)  (* open() on a missing file *)
| JSONDecodeError (path : string)    (* json.load on malformed content *)
| DefaultCredentialsError            (* google.auth.default found nothing *)
| HttpError                          (* events().list(...).execute() failed *)
| OverflowError                      (* datetime arithmetic left the range *)
| ParserError (text : string)        (* dateutil could not read the text *)
| KeyError (key : string).           (* d[key] on a missing key *)

Inductive result (A : Type) : Type :=
| Ok (a : A)
| Raise (e : exn).
Arguments Ok {A} a.
Arguments Raise {A} e.

#[global] Instance result_ret : MRet result := fun A a => Ok a.
#[global] Instance result_bind : MBind result := fun A B f r =>
  match r with
  | Ok a => f a
  | Raise e => Raise e
  end.

(** ** Truthiness

    [if x:] on an optional string is true for a present, non-empty string;
    [if d:] on an optional dictionary is true for a present, non-empty one. *)

Definition str_truthy (s : string) : bool :=
  match s with
  | EmptyString => false
  | String _ _ => true
  end.

Definition truthy (o : option string) : bool := from_option str_truthy false o.

Definition dict_truthy (o : option (gmap string string)) : bool :=
  from_option (fun d => negb (bool_decide (d = ∅))) false o.

(** ** Calendar arithmetic

    [datetime] values are kept as a count of microseconds of wall-clock
    reading since 1970-01-01T00:00:00 together with the UTC offset (in
    microseconds) of the attached [tzinfo], [None] for a naive value.
    The proleptic Gregorian calendar is only needed to delimit the range
    of [datetime] and to print and read timestamps. *)

Module Civil.

Definition us_per_second : Z := 1000000.
Definition us_per_minute : Z := 60 * us_per_second.
Definition us_per_hour : Z := 60 * us_per_minute.
Definition us_per_day : Z := 24 * us_per_hour.

(** Days between 1970-01-01 and the civil date [y]-[m]-[d]. *)
Definition days_from_civil (y m d : Z) : Z :=
  let y' := if m <=? 2 then y - 1 else y in
  let era := y' / 400 in
  let yoe := y' - era * 400 in
  let mp := (m + 9) mod 12 in
  let doy := (153 * mp + 2) / 5 + d - 1 in
  let doe := yoe * 365 + yoe / 4 - yoe / 100 + doy in
  era * 146097 + doe - 719468.

(** The civil date, [(year, month, day)], of a day count. *)
Definition civil_from_days (z : Z) : Z * Z * Z :=
  let z' := z + 719468 in
  let era := z' / 146097 in
  let doe := z' - era * 146097 in
  let yoe := (doe - doe / 1460 + doe / 36524 - doe / 146096) / 365 in
  let doy := doe - (365 * yoe + yoe / 4 - yoe / 100) in
  let mp := (5 * doy + 2) / 153 in
  let d := doy - (153 * mp + 2) / 5 + 1 in
  let m := if mp <? 10 then mp + 3 else mp - 9 in
  let y := yoe + era * 400 in
  (if m <=? 2 then y + 1 else y, m, d).

Definition is_leap (y : Z) : bool :=
  (y mod 4 =? 0) && (negb (y mod 100 =? 0) || (y mod 400 =? 0)).

Definition days_in_month (y m : Z) : Z :=
  if m =? 2 then (if is_leap y then 29 else 28)
  else if (m =? 4) || (m =? 6) || (m =? 9) || (m =? 11) then 30
  else 31.

(** datetime.min and datetime.max as wall-clock microseconds. *)
Definition MIN_WALL : Z := days_from_civil 1 1 1 * us_per_day.
Definition MAX_WALL : Z := (days_from_civil 9999 12 31 + 1) * us_per_day - 1.

(** timedelta.min and timedelta.max in microseconds. *)
Definition MIN_DELTA : Z := - 999999999 * us_per_day.
Definition MAX_DELTA : Z := 1000000000 * us_per_day - 1.

End Civil.

Record datetime : Type := {
  wall : Z;             (* local reading, microseconds since 1970-01-01T00:00 *)
  tzinfo : option Z     (* utcoffset() in microseconds, None when naive *)
}.

Definition in_datetime_range (us : Z) : bool :=
  (Civil.MIN_WALL <=? us) && (us <=? Civil.MAX_WALL).

(** [timedelta(minutes=m)] *)
Definition timedelta_minutes (m : Z) : result Z :=
  let us := m * Civil.us_per_minute in
  if (Civil.MIN_DELTA <=? us) && (us <=? Civil.MAX_DELTA) then Ok us
  else Raise OverflowError.

(** [d + td] and [d - td]; the zone is kept, the result must be a date
    between year 1 and year 9999. *)
Definition datetime_add (d : datetime) (td : Z) : result datetime :=
  let us := wall d + td in
  if in_datetime_range us then Ok {| wall := us; tzinfo := tzinfo d |}
  else Raise OverflowError.

Definition datetime_sub (d : datetime) (td : Z) : result datetime :=
  let us := wall d - td in
  if in_datetime_range us then Ok {| wall := us; tzinfo := tzinfo d |}
  else Raise OverflowError.

(** [a <= b] and [a < b] on two values that are both in UTC. *)
Definition datetime_le (a b : datetime) : bool := wall a <=? wall b.
Definition datetime_lt (a b : datetime) : bool := wall a <? wall b.

(** ** Printing: [datetime.isoformat()] *)

Module Iso.

Definition digit_char (n : Z) : ascii := ascii_of_nat (48 + Z.to_nat (n mod 10)).

(** [n] in decimal on exactly [width] digits (zero padded). *)
Fixpoint pad (width : nat) (n : Z) : string :=
  match width with
  | O => EmptyString
  | S w => pad w (n / 10) +:+ String (digit_char n) EmptyString
  end.

Definition clock_text (us : Z) : string :=
  let h := us / Civil.us_per_hour in
  let mi := (us / Civil.us_per_minute) mod 60 in
  let s := (us / Civil.us_per_second) mod 60 in
  let f := us mod Civil.us_per_second in
  pad 2 h +:+ ":" +:+ pad 2 mi +:+ ":" +:+ pad 2 s
  +:+ (if f =? 0 then EmptyString else "." +:+ pad 6 f).

Definition offset_text (off : Z) : string :=
  let a := Z.abs off in
  let h := a / Civil.us_per_hour in
  let mi := (a / Civil.us_per_minute) mod 60 in
  let s := (a / Civil.us_per_second) mod 60 in
  let f := a mod Civil.us_per_second in
  (if off <? 0 then "-" else "+") +:+ pad 2 h +:+ ":" +:+ pad 2 mi
  +:+ (if (s =? 0) && (f =? 0) then EmptyString
       else ":" +:+ pad 2 s +:+ (if f =? 0 then EmptyString else "." +:+ pad 6 f)).

Definition isoformat (d : datetime) : string :=
  let days := wall d / Civil.us_per_day in
  let '(y, m, dd) := Civil.civil_from_days days in
  pad 4 y +:+ "-" +:+ pad 2 m +:+ "-" +:+ pad 2 dd +:+ "T"
  +:+ clock_text (wall d mod Civil.us_per_day)
  +:+ from_option offset_text EmptyString (tzinfo d).

End Iso.

(** ** Reading: a reference timestamp reader

    [dateutil.parser.parse] is a third-party function; the development
    below is parametric in it.  [Rfc3339.parse] reads the strict form
    [YYYY-MM-DDTHH:MM:SS[.f](Z|+HH:MM|-HH:MM)], on which dateutil agrees,
    and instantiates the parameter in the worked examples. *)

Module Rfc3339.

Definition digit (c : ascii) : option Z :=
  let n := Z.of_nat (nat_of_ascii c) in
  if (48 <=? n) && (n <=? 57) then Some (n - 48) else None.

(** Exactly [n] decimal digits, accumulated onto [acc]. *)
Fixpoint number (n : nat) (acc : Z) (s : string) : option (Z * string) :=
  match n with
  | O => Some (acc, s)
  | S k =>
      match s with
      | String c rest => d ← digit c; number k (10 * acc + d) rest
      | EmptyString => None
      end
  end.

Definition expect (c : ascii) (s : string) : option string :=
  match s with
  | String c' rest => if Ascii.eqb c c' then Some rest else None
  | EmptyString => None
  end.

(** Up to [n] fractional digits scaled to microseconds. *)
Fixpoint fraction (n : nat) (scale acc : Z) (s : string) : Z * string :=
  match n with
  | O => (acc, s)
  | S k =>
      match s with
      | String c rest =>
          match digit c with
          | Some d => fraction k (scale / 10) (acc + d * scale) rest
          | None => (acc, s)
          end
      | EmptyString => (acc, s)
      end
  end.

Definition zone (s : string) : option Z :=
  match s with
  | "Z" => Some 0
  | String sign rest =>
      sgn ← (if Ascii.eqb sign "+" then Some 1
             else if Ascii.eqb sign "-" then Some (-1) else None);
      '(h, r1) ← number 2 0 rest;
      r2 ← expect ":" r1;
      '(mi, r3) ← number 2 0 r2;
      match r3 with
      | EmptyString =>
          if (h <? 24) && (mi <? 60)
          then Some (sgn * (h * Civil.us_per_hour + mi * Civil.us_per_minute))
          else None
      | _ => None
      end
  | EmptyString => None
  end.

Definition read (s : string) : option datetime :=
  '(y, r) ← number 4 0 s;
  r ← expect "-" r;
  '(m, r) ← number 2 0 r;
  r ← expect "-" r;
  '(d, r) ← number 2 0 r;
  r ← expect "T" r;
  '(h, r) ← number 2 0 r;
  r ← expect ":" r;
  '(mi, r) ← number 2 0 r;
  r ← expect ":" r;
  '(sec, r) ← number 2 0 r;
  let '(f, r) :=
    match expect "." r with
    | Some r' => fraction 6 100000 0 r'
    | None => (0, r)
    end in
  off ← zone r;
  if (1 <=? y) && (1 <=? m) && (m <=? 12) && (1 <=? d)
     && (d <=? Civil.days_in_month y m)
     && (h <? 24) && (mi <? 60) && (sec <? 60)
  then Some {| wall := Civil.days_from_civil y m d * Civil.us_per_day
                       + h * Civil.us_per_hour + mi * Civil.us_per_minute
                       + sec * Civil.us_per_second + f;
               tzinfo := Some off |}
  else None.

Definition parse (s : string) : result datetime :=
  match read s with
  | Some d => Ok d
  | None => Raise (ParserError s)
  end.

End Rfc3339.

(** ** Data exchanged with the outside world

    An event boundary is the dictionary [{"date": ..}] or
    [{"dateTime": .., "timeZone": ..}], an event maps ["start"] and ["end"]
    to boundaries, and the configuration file maps ["sheets"] to a
    dictionary from sheet keys to records with a ["calendarId"]. *)

Abbreviation boundary := (gmap string string).
Abbreviation event := (gmap string (gmap string string)).
Abbreviation config := (gmap string (gmap string (gmap string string))).

(** The keyword arguments of [service.events().list(...)]. *)
Record request : Type := {
  calendarId : string;
  timeMin : string;
  timeMax : string;
  singleEvents : bool;
  orderBy : string;
  maxResults : Z;
  pageToken : option string
}.

(** The fields of a response that the script reads. *)
Record response : Type := {
  items : option (list event);
  nextPageToken : option string
}.

(** The parsed command line: [--calendar-id], [--sheet], [--config] and
    [--lookback-minutes]. *)
Record args : Type := {
  arg_calendar_id : option string;
  arg_sheet : option string;
  arg_config : string;
  arg_lookback_minutes : Z
}.

Inductive file : Type :=
| Json (c : config)   (* content that json.load turns into this dictionary *)
| Garbage.            (* content that json.load rejects *)

Inductive io : Type :=
| ReadFile (path : string)
| DiscoverCredentials
| ListEvents (req : request)
| Examined (ev : event)      (* a call of event_is_now on a fetched event *)
| Print (line : string).

(** The part of the world the script can see or change.  [os_path_abspath]
    is [os.path.abspath] in the process's working directory; [service]
    holds the answers the calendar backend gives to the successive list
    requests; when a run asks for more, the transport fails. *)
Record world : Type := {
  files : gmap string file;
  os_path_abspath : string -> string;
  credentials : bool;
  clock : Z;
  service : list (result response);
  log : list io
}.

Definition set_log (l : list io) (w : world) : world :=
  {| files := files w; os_path_abspath := os_path_abspath w;
     credentials := credentials w; clock := clock w;
     service := service w; log := l |}.

Definition set_service (s : list (result response)) (w : world) : world :=
  {| files := files w; os_path_abspath := os_path_abspath w;
     credentials := credentials w; clock := clock w;
     service := s; log := log w |}.

(** The list requests and the examined events of a log, in order. *)
Definition requests (l : list io) : list request :=
  omap (fun e => match e with ListEvents r => Some r | _ => None end) l.

Definition examined (l : list io) : list event :=
  omap (fun e => match e with Examined ev => Some ev | _ => None end) l.

(** The files a log shows as read, in order. *)
Definition reads (l : list io) : list string :=
  omap (fun e => match e with ReadFile path => Some path | _ => None end) l.

(** The lines a log shows as printed, in order. *)
Definition prints (l : list io) : list string :=
  omap (fun e => match e with Print line => Some line | _ => None end) l.

(** The effects of the fetch loop: a list request, or a look at an event. *)
Definition is_fetch (e : io) : bool :=
  match e with
  | ListEvents _ | Examined _ => true
  | _ => false
  end.

(** The effects of a log that go over the network. *)
Definition is_network (e : io) : bool :=
  match e with
  | DiscoverCredentials | ListEvents _ => true
  | _ => false
  end.

Definition network (l : list io) : list io := List.filter is_network l.

(** ** Computations: state and exceptions *)

Definition M (A : Type) : Type := world -> result A * world.

#[global] Instance M_ret : MRet M := fun A a w => (Ok a, w).
#[global] Instance M_bind : MBind M := fun A B f m w =>
  match m w with
  | (Ok a, w') => f a w'
  | (Raise e, w') => (Raise e, w')
  end.

Definition raise {A : Type} (e : exn) : M A := fun w => (Raise e, w).
Definition lift {A : Type} (r : result A) : M A := fun w => (r, w).
Definition emit (e : io) : M unit := fun w => (Ok tt, set_log (log w ++ [e]) w).
Definition answer (rest : list (result response)) : M unit :=
  fun w => (Ok tt, set_service rest w).

Definition pending {A : Type} (k : list (result response) -> M A) : M A :=
  fun w => k (service w) w.

(** [json.load(open(path))] *)
Definition read_json (path : string) : M config := fun w =>
  match files w !! path with
  | Some (Json c) => (Ok c, w)
  | Some Garbage => (Raise (JSONDecodeError path), w)
  | None => (Raise (FileNotFoundError path), w)
  end.

(** Whether a service-account file or ambient credentials are found. *)
Definition discover : M unit := fun w =>
  if credentials w then (Ok tt, w) else (Raise DefaultCredentialsError, w).

(** [os.path.abspath(path)] *)
Definition abspath (path : string) : M string :=
  fun w => (Ok (os_path_abspath w path), w).

(** [datetime.now(timezone.utc)] *)
Definition datetime_now_utc : M datetime :=
  fun w => (Ok {| wall := clock w; tzinfo := Some 0 |}, w).

(** [d[key]] *)
Definition getitem (d : gmap string string) (key : string) : result string :=
  match d !! key with
  | Some v => Ok v
  | None => Raise (KeyError key)
  end.

(** ** Sample data for the worked examples *)

Module Sample.

Definition timed (start_text end_text : string) : event :=
  {[ "start" := {[ "dateTime" := start_text ]};
     "end" := {[ "dateTime" := end_text ]} ]}.

Definition whole_day (start_date end_date : string) : event :=
  {[ "start" := {[ "date" := start_date ]};
     "end" := {[ "date" := end_date ]} ]}.

(** 2024-01-01 at 10:00, 10:59:59.999, 11:00 and 12:00 UTC. *)
Definition at_10_00 : datetime := {| wall := 1704103200000000; tzinfo := Some 0 |}.
Definition at_10_59 : datetime := {| wall := 1704106799999000; tzinfo := Some 0 |}.
Definition at_11_00 : datetime := {| wall := 1704106800000000; tzinfo := Some 0 |}.
Definition noon : datetime := {| wall := 1704110400000000; tzinfo := Some 0 |}.

Definition ten_to_eleven : event :=
  timed "2024-01-01T10:00:00Z" "2024-01-01T11:00:00Z".

(** One interval, 11:30 to 12:30 UTC, written in three zones. *)
Definition around_noon : event :=
  timed "2024-01-01T11:30:00Z" "2024-01-01T12:30:00Z".
Definition around_noon_east : event :=
  timed "2024-01-01T13:30:00+02:00" "2024-01-01T14:30:00+02:00".
Definition around_noon_west : event :=
  timed "2024-01-01T06:30:00-05:00" "2024-01-01T07:30:00-05:00".

Definition until_noon : event :=
  timed "2024-01-01T11:30:00Z" "2024-01-01T12:00:00Z".
Definition new_year : event := whole_day "2024-01-01" "2024-01-02".
Definition unreadable : event := timed "soon" "later".

(** A day-long marker next to two readable timestamps. *)
Definition marked : event :=
  {[ "start" := {[ "date" := "2024-01-01";
                   "dateTime" := "2024-01-01T11:30:00Z" ]};
     "end" := {[ "dateTime" := "2024-01-01T12:30:00Z" ]} ]}.

Definition page (evs : list event) (token : option string) : response :=
  {| items := Some evs; nextPageToken := token |}.

(** Three pages of 50, 50 and 7 events, none of them live at noon. *)
Definition three_pages : list response :=
  [ page (repeat until_noon 50) (Some "page-2");
    page (repeat new_year 50) (Some "page-3");
    page (repeat ten_to_eleven 7) None ].

(** A first page with a live event in the middle, and a second page. *)
Definition first_page : response :=
  page [new_year; around_noon; until_noon] (Some "page-2").
Definition second_page : response := page [around_noon] None.
Definition two_pages : list (result response) := [Ok first_page; Ok second_page].

(** A machine whose local zone is UTC. *)
Definition utc : Z -> Z := fun _ => 0.

Definition sheets_config : config :=
  {[ "sheets" := {[ "A" := {[ "calendarId" := "sheet-a@example.org" ]};
                    "B" := {[ "tab" := "Sheet B" ]} ]} ]}.

Definition world_with (script : list (result response)) : world :=
  {| files := {[ "/srv/scheduler/config.json" := Json sheets_config ]};
     os_path_abspath := id;
     credentials := true;
     clock := 1704110400000000;
     service := script;
     log := [] |}.

(** A listing whose only live event sits on the second page, and the
    same events on a single page, in another order. *)
Definition late_hit : list response :=
  [ page [new_year; until_noon] (Some "page-2"); page [around_noon] None ].
Definition one_page : list response :=
  [ page [around_noon; new_year; until_noon] None ].

(** A backend that fails on the second request. *)
Definition failing_script : list (result response) :=
  [ Ok (page [new_year; until_noon] (Some "page-2"));
    Raise HttpError;
    Ok (page [around_noon] None) ].

(** A page with an unreadable event before a live one. *)
Definition faulty_script : list (result response) :=
  [ Ok (page [new_year; unreadable; around_noon] None) ].

(** An event that ends before it starts, and one that starts before
    year 1 once moved to UTC. *)
Definition backwards : event :=
  timed "2024-01-01T12:30:00Z" "2024-01-01T11:30:00Z".
Definition dawn : event :=
  timed "0001-01-01T00:00:00+05:00" "2024-01-01T12:30:00Z".

(** A machine without credentials, and one whose configuration file is
    not JSON. *)
Definition without_credentials : world :=
  {| files := {[ "/srv/scheduler/config.json" := Json sheets_config ]};
     os_path_abspath := id;
     credentials := false;
     clock := 1704110400000000;
     service := two_pages;
     log := [] |}.

Definition with_broken_config : world :=
  {| files := {[ "/srv/scheduler/config.json" := Garbage ]};
     os_path_abspath := id;
     credentials := true;
     clock := 1704110400000000;
     service := two_pages;
     log := [] |}.

Definition command (calendar_id sheet : option string) : args :=
  {| arg_calendar_id := calendar_id;
     arg_sheet := sheet;
     arg_config := "/srv/scheduler/config.json";
     arg_lookback_minutes := 720 |}.

End Sample.

(** ** The script *)

Section IsLive.

Set Default Proof Using "Type".

(** [dateutil.parser.parse], and the UTC offset the operating system
    gives to a naive local reading. *)
Variable date_parser_parse : string -> result datetime.
Variable local_utcoffset : Z -> Z.

Definition load_config (config_path : string) : M config :=
  emit (ReadFile config_path);;
  read_json config_path.

Definition resolve_calendar_id (sheet_key calendar_id_arg : option string)
    (config_path : string) : M string :=
  match calendar_id_arg with
  | Some (String _ _ as calendar_id) => mret calendar_id
  | _ =>
      match sheet_key with
      | Some (String _ _ as key) =>
          config ← load_config config_path;
          let sheets := default ∅ (config !! "sheets") in
          let sheet_cfg := sheets !! key in
          if negb (dict_truthy sheet_cfg)
             || negb (truthy (sheet_cfg ≫= (.!! "calendarId")))
          then raise (SystemExit ("calendarId not found for sheet " +:+ key
                                  +:+ " in " +:+ config_path))
          else lift (getitem (default ∅ sheet_cfg) "calendarId")
      | _ => raise (SystemExit "either --calendar-id or --sheet must be provided")
      end
  end.

Definition get_credentials : M unit :=
  emit DiscoverCredentials;;
  discover.

Definition parse_rfc3339 (dt_str : string) : result datetime :=
  date_parser_parse dt_str.

(** [d.astimezone(timezone.utc)]; a naive [d] is taken as local time. *)
Definition astimezone_utc (d : datetime) : result datetime :=
  let offset := from_option id (local_utcoffset (wall d)) (tzinfo d) in
  let utc := wall d - offset in
  if in_datetime_range utc then Ok {| wall := utc; tzinfo := Some 0 |}
  else Raise OverflowError.

Definition event_is_now (ev : event) (now : datetime) : result bool :=
  let start := default ∅ (ev !! "start") in
  let end_ := default ∅ (ev !! "end") in
  if truthy (start !! "date") || truthy (end_ !! "date") then Ok false
  else if negb (truthy (start !! "dateTime"))
          || negb (truthy (end_ !! "dateTime")) then Ok false
  else
    start_text ← getitem start "dateTime";
    start_parsed ← parse_rfc3339 start_text;
    start_dt ← astimezone_utc start_parsed;
    end_text ← getitem end_ "dateTime";
    end_parsed ← parse_rfc3339 end_text;
    end_dt ← astimezone_utc end_parsed;
    now_utc ← astimezone_utc now;
    Ok (datetime_le start_dt now_utc && datetime_lt now_utc end_dt).

(** [for ev in resp.get("items", []): if event_is_now(ev, now): return True] *)
Fixpoint scan (now : datetime) (evs : list event) : M bool :=
  match evs with
  | [] => mret false
  | ev :: rest =>
      emit (Examined ev);;
      hit ← lift (event_is_now ev now);
      if hit : bool then mret true else scan now rest
  end.

(** The [while True] loop, by recursion on the answers the backend still
    has to give. *)
Fixpoint pages (request_for : option string -> request) (now : datetime)
    (script : list (result response)) (page_token : option string) : M bool :=
  match script with
  | [] => emit (ListEvents (request_for page_token));; raise HttpError
  | out :: rest =>
      emit (ListEvents (request_for page_token));;
      answer rest;;
      resp ← lift out;
      hit ← scan now (default [] (items resp));
      if hit : bool then mret true
      else
        let page_token := nextPageToken resp in
        if negb (truthy page_token) then mret false
        else pages request_for now rest page_token
  end.

Definition check_is_live (calendar_id : string) (lookback_minutes : Z) : M bool :=
  get_credentials;;
  now ← datetime_now_utc;
  time_min ← lift (back ← timedelta_minutes lookback_minutes; datetime_sub now back);
  time_max ← lift (lead ← timedelta_minutes 1; datetime_add now lead);
  let request_for page_token :=
    {| calendarId := calendar_id;
       timeMin := Iso.isoformat time_min;
       timeMax := Iso.isoformat time_max;
       singleEvents := true;
       orderBy := "startTime";
       maxResults := 50;
       pageToken := page_token |} in
  pending (fun script => pages request_for now script None).

Definition main (a : args) : M unit :=
  config_path ← abspath (arg_config a);
  calendar_id ← resolve_calendar_id (arg_sheet a) (arg_calendar_id a) config_path;
  is_live ← check_is_live calendar_id (arg_lookback_minutes a);
  emit (Print (if is_live : bool then "is live" else "is off")).

(** *** Vocabulary of the specification *)

(** The absolute instant a [datetime] denotes: microseconds since the
    epoch, in UTC. *)
Definition utc_instant (d : datetime) : Z :=
  wall d - from_option id (local_utcoffset (wall d)) (tzinfo d).

(** [ev.get(key, {})] *)
Definition boundary_of (ev : event) (key : string) : boundary :=
  default ∅ (ev !! key).

(** A boundary carries an all-day marker: a non-empty ["date"]. *)
Definition all_day (b : boundary) : Prop :=
  exists d, b !! "date" = Some d /\ d <> EmptyString.

(** A boundary has no precise timestamp value: no ["dateTime"], or an
    empty one. *)
Definition no_timestamp (b : boundary) : Prop :=
  b !! "dateTime" = None \/ b !! "dateTime" = Some EmptyString.

(** The text of a boundary that is a precise timestamp: it carries a
    non-empty ["dateTime"] and no all-day marker. *)
Definition timestamp_of (ev : event) (key : string) : option string :=
  let b := boundary_of ev key in
  if truthy (b !! "date") then None
  else match b !! "dateTime" with
       | Some (String _ _ as text) => Some text
       | _ => None
       end.

Definition page_items (p : response) : list event := default [] (items p).

Definition not_live (now : datetime) (ev : event) : bool :=
  match event_is_now ev now with
  | Ok false => true
  | _ => false
  end.

Definition live (now : datetime) (ev : event) : bool :=
  match event_is_now ev now with
  | Ok true => true
  | _ => false
  end.

(** [event_is_now] answers on the event, one way or the other. *)
Definition evaluates (now : datetime) (ev : event) : bool :=
  match event_is_now ev now with
  | Ok _ => true
  | Raise _ => false
  end.

(** The request [check_is_live] builds from two window texts. *)
Definition list_request (calendar_id time_min time_max : string)
    (page_token : option string) : request :=
  {| calendarId := calendar_id;
     timeMin := time_min;
     timeMax := time_max;
     singleEvents := true;
     orderBy := "startTime";
     maxResults := 50;
     pageToken := page_token |}.

(** No event of the pages is in progress. *)
Definition quiet (now : datetime) (ps : list response) : bool :=
  forallb (fun p => forallb (not_live now) (page_items p)) ps.

Definition has_token (p : response) : bool := truthy (nextPageToken p).

(** A complete listing: every page but the last names a successor. *)
Fixpoint chained (ps : list response) : bool :=
  match ps with
  | [] => false
  | [p] => negb (has_token p)
  | p :: ps' => has_token p && chained ps'
  end.

(** The token in hand after the pages [ps] were read, starting with [tok]. *)
Definition token_after (tok : option string) (ps : list response) : option string :=
  fold_left (fun _ p => nextPageToken p) ps tok.

(** What reading the pages [ps] to the end writes to the log. *)
Fixpoint chain_log (request_for : option string -> request)
    (tok : option string) (ps : list response) : list io :=
  match ps with
  | [] => []
  | p :: ps' =>
      ListEvents (request_for tok) :: map Examined (page_items p)
      ++ chain_log request_for (nextPageToken p) ps'
  end.

(** The request for the window from [lookback] minutes before [now] to
    one minute after it. *)
Definition window_request (calendar_id : string) (now lookback : Z)
    (page_token : option string) : request :=
  {| calendarId := calendar_id;
     timeMin := Iso.isoformat {| wall := now - lookback * Civil.us_per_minute;
                                  tzinfo := Some 0 |};
     timeMax := Iso.isoformat {| wall := now + 1 * Civil.us_per_minute;
                                  tzinfo := Some 0 |};
     singleEvents := true;
     orderBy := "startTime";
     maxResults := 50;
     pageToken := page_token |}.

(** Both ends of the window are [datetime] values. *)
Definition window_ok (now lookback : Z) : bool :=
  in_datetime_range now
  && in_datetime_range (now - lookback * Civil.us_per_minute)
  && in_datetime_range (now + 1 * Civil.us_per_minute).

(** The configuration [c] gives no usable identifier for [key]: the key
    is absent from the ["sheets"] section, or its record has no
    ["calendarId"] or an empty one. *)
Definition unresolved (c : config) (key : string) : Prop :=
  let sheets := default ∅ (c !! "sheets") in
  sheets !! key = None
  \/ exists sheet_cfg : gmap string string,
       sheets !! key = Some sheet_cfg
       /\ (sheet_cfg !! "calendarId" = None \/ sheet_cfg !! "calendarId" = Some EmptyString).

(** *** The evaluator *)

Lemma astimezone_utc_instant (d : datetime) :
  astimezone_utc d =
    if in_datetime_range (utc_instant d)
    then Ok {| wall := utc_instant d; tzinfo := Some 0 |}
    else Raise OverflowError.
Proof. reflexivity. Qed.

Lemma truthy_true (o : option string) :
  truthy o = true <-> exists s, o = Some s /\ s <> EmptyString.
Proof.
  split.
  - destruct o as [[|a s]|]; simpl; try discriminate.
    intros _. exists (String a s). split; [reflexivity | discriminate].
  - intros (s & -> & Hs). destruct s; [contradiction | reflexivity].
Qed.

Lemma truthy_false (o : option string) :
  truthy o = false <-> o = None \/ o = Some EmptyString.
Proof.
  split.
  - destruct o as [[|a s]|]; simpl; try discriminate; auto.
  - intros [-> | ->]; reflexivity.
Qed.

Lemma timestamp_of_Some (ev : event) (key text : string) :
  timestamp_of ev key = Some text ->
  truthy (boundary_of ev key !! "date") = false
  /\ boundary_of ev key !! "dateTime" = Some text
  /\ truthy (Some text) = true.
Proof.
  unfold timestamp_of.
  destruct (truthy (boundary_of ev key !! "date")); [discriminate |].
  destruct (boundary_of ev key !! "dateTime") as [[|a t]|]; try discriminate.
  intros [= <-]. auto.
Qed.

(** On an event with two precise timestamps the evaluator parses the
    start, normalises it, does the same for the end and for [now], and
    compares. *)
Lemma event_is_now_timestamps (ev : event) (now : datetime) (s e : string) :
  timestamp_of ev "start" = Some s ->
  timestamp_of ev "end" = Some e ->
  event_is_now ev now =
    (start_parsed ← parse_rfc3339 s;
     start_dt ← astimezone_utc start_parsed;
     end_parsed ← parse_rfc3339 e;
     end_dt ← astimezone_utc end_parsed;
     now_utc ← astimezone_utc now;
     Ok (datetime_le start_dt now_utc && datetime_lt now_utc end_dt)).
Proof.
  intros Hs He.
  apply timestamp_of_Some in Hs as (Hsd & Hst & Hsn).
  apply timestamp_of_Some in He as (Hed & Het & Hen).
  unfold boundary_of in *. unfold event_is_now.
  rewrite Hsd, Hed, Hst, Het, Hsn, Hen. simpl.
  unfold getitem. rewrite Hst, Het. reflexivity.
Qed.

(** C1. On an event whose two boundaries are precise timestamps, with
    [now] and both boundaries normalised to UTC, [event_is_now] answers
    true exactly when start <= now < end: the interval is half-open, so
    an event ending exactly at [now] is not live and one starting exactly
    at [now] (and not yet over) is live. *)
Theorem event_is_now_half_open (ev : event) (now : datetime) (s e : string)
    (ds de : datetime) :
  timestamp_of ev "start" = Some s ->
  timestamp_of ev "end" = Some e ->
  date_parser_parse s = Ok ds ->
  date_parser_parse e = Ok de ->
  in_datetime_range (utc_instant ds) = true ->
  in_datetime_range (utc_instant de) = true ->
  in_datetime_range (utc_instant now) = true ->
  exists live_now : bool,
    event_is_now ev now = Ok live_now
    /\ (live_now = true <->
          utc_instant ds <= utc_instant now /\ utc_instant now < utc_instant de)
    /\ (utc_instant now = utc_instant de -> live_now = false)
    /\ (utc_instant now = utc_instant ds ->
          utc_instant now < utc_instant de -> live_now = true).
Proof.
  intros Hs He Hps Hpe Hrs Hre Hrn.
  rewrite (event_is_now_timestamps ev now s e Hs He).
  unfold parse_rfc3339. rewrite Hps, Hpe. simpl.
  rewrite !astimezone_utc_instant, Hrs, Hre, Hrn. simpl.
  eexists. split; [reflexivity |].
  unfold datetime_le, datetime_lt. simpl.
  split; [| split].
  - rewrite andb_true_iff, Z.leb_le, Z.ltb_lt. tauto.
  - intros Heq. apply andb_false_iff. right. apply Z.ltb_ge. lia.
  - intros Heq Hlt. apply andb_true_iff. rewrite Z.leb_le, Z.ltb_lt. lia.
Qed.

(** C2. An event is never live when one of its boundaries carries an
    all-day date, or has no precise timestamp value at all, whatever the
    other boundary holds and wherever [now] falls. *)
Theorem event_is_now_ineligible (ev : event) (now : datetime) :
  all_day (boundary_of ev "start") \/ all_day (boundary_of ev "end")
  \/ no_timestamp (boundary_of ev "start") \/ no_timestamp (boundary_of ev "end") ->
  event_is_now ev now = Ok false.
Proof.
  unfold all_day, no_timestamp, boundary_of, event_is_now.
  intros H.
  destruct (truthy (default ∅ (ev !! "start") !! "date")) eqn:Hsd;
    [reflexivity |].
  destruct (truthy (default ∅ (ev !! "end") !! "date")) eqn:Hed;
    [reflexivity |].
  simpl.
  destruct (truthy (default ∅ (ev !! "start") !! "dateTime")) eqn:Hst;
    [| reflexivity].
  destruct (truthy (default ∅ (ev !! "end") !! "dateTime")) eqn:Het;
    [| reflexivity].
  exfalso.
  destruct H as [H | [H | [H | H]]].
  - apply truthy_true in H. congruence.
  - apply truthy_true in H. congruence.
  - apply truthy_false in H. congruence.
  - apply truthy_false in H. congruence.
Qed.

(** C5. Two events whose timestamps are written with different offsets
    but denote the same absolute start and the same absolute end get the
    same answer (or the same error) for the same absolute [now]. *)
Theorem event_is_now_zone_invariant (ev1 ev2 : event) (now1 now2 : datetime)
    (s1 e1 s2 e2 : string) (ds1 de1 ds2 de2 : datetime) :
  timestamp_of ev1 "start" = Some s1 ->
  timestamp_of ev1 "end" = Some e1 ->
  timestamp_of ev2 "start" = Some s2 ->
  timestamp_of ev2 "end" = Some e2 ->
  date_parser_parse s1 = Ok ds1 ->
  date_parser_parse e1 = Ok de1 ->
  date_parser_parse s2 = Ok ds2 ->
  date_parser_parse e2 = Ok de2 ->
  utc_instant ds1 = utc_instant ds2 ->
  utc_instant de1 = utc_instant de2 ->
  utc_instant now1 = utc_instant now2 ->
  event_is_now ev1 now1 = event_is_now ev2 now2.
Proof.
  intros Hs1 He1 Hs2 He2 Hps1 Hpe1 Hps2 Hpe2 Hs Hend Hn.
  rewrite (event_is_now_timestamps ev1 now1 s1 e1 Hs1 He1).
  rewrite (event_is_now_timestamps ev2 now2 s2 e2 Hs2 He2).
  unfold parse_rfc3339. rewrite Hps1, Hpe1, Hps2, Hpe2. simpl.
  rewrite !astimezone_utc_instant, Hs, Hend, Hn.
  reflexivity.
Qed.

(** C10. On an event with two present, non-empty timestamp texts, a text
    the parser rejects makes [event_is_now] raise instead of answering
    "not live"; it answers with a boolean only when both texts parse. *)
Theorem event_is_now_unparseable (ev : event) (now : datetime) (s e : string) :
  timestamp_of ev "start" = Some s ->
  timestamp_of ev "end" = Some e ->
  (forall b : bool, event_is_now ev now = Ok b ->
     (exists ds, date_parser_parse s = Ok ds)
     /\ (exists de, date_parser_parse e = Ok de))
  /\ ((exists x, date_parser_parse s = Raise x)
       \/ (exists x, date_parser_parse e = Raise x) ->
      exists x, event_is_now ev now = Raise x)
  /\ (forall x, date_parser_parse s = Raise x -> event_is_now ev now = Raise x).
Proof.
  intros Hs He.
  rewrite (event_is_now_timestamps ev now s e Hs He).
  unfold parse_rfc3339.
  assert (Hok : forall b : bool,
    (start_parsed ← date_parser_parse s;
     start_dt ← astimezone_utc start_parsed;
     end_parsed ← date_parser_parse e;
     end_dt ← astimezone_utc end_parsed;
     now_utc ← astimezone_utc now;
     Ok (datetime_le start_dt now_utc && datetime_lt now_utc end_dt)) = Ok b ->
    (exists ds, date_parser_parse s = Ok ds)
    /\ (exists de, date_parser_parse e = Ok de)).
  { intros b.
    destruct (date_parser_parse s) as [ds | x]; simpl; [| discriminate].
    destruct (astimezone_utc ds) as [su | x]; simpl; [| discriminate].
    destruct (date_parser_parse e) as [de | x]; simpl; [| discriminate].
    intros _. eauto. }
  split; [exact Hok |]. split.
  - intros Hbad.
    match goal with |- exists x, ?r = Raise x => destruct r as [b | x] eqn:Hr end;
      [| eauto].
    destruct (Hok b eq_refl) as [[ds Hds] [de Hde]].
    destruct Hbad as [[x Hx] | [x Hx]]; congruence.
  - intros x Hx. rewrite Hx. reflexivity.
Qed.

(** *** The fetcher *)

Lemma scan_cons (now : datetime) (ev : event) (evs : list event) (w : world) :
  scan now (ev :: evs) w =
    let w1 := set_log (log w ++ [Examined ev]) w in
    match event_is_now ev now with
    | Ok true => (Ok true, w1)
    | Ok false => scan now evs w1
    | Raise x => (Raise x, w1)
    end.
Proof.
  cbn [scan]. unfold mbind, M_bind, emit, lift.
  destruct (event_is_now ev now) as [[|]|]; reflexivity.
Qed.

Lemma pages_nil (request_for : option string -> request) (now : datetime)
    (tok : option string) (w : world) :
  pages request_for now [] tok w =
    (Raise HttpError, set_log (log w ++ [ListEvents (request_for tok)]) w).
Proof. reflexivity. Qed.

Lemma pages_cons (request_for : option string -> request) (now : datetime)
    (out : result response) (rest : list (result response))
    (tok : option string) (w : world) :
  pages request_for now (out :: rest) tok w =
    let w1 := set_service rest
                (set_log (log w ++ [ListEvents (request_for tok)]) w) in
    match out with
    | Raise x => (Raise x, w1)
    | Ok resp =>
        match scan now (page_items resp) w1 with
        | (Ok true, w2) => (Ok true, w2)
        | (Ok false, w2) =>
            if has_token resp
            then pages request_for now rest (nextPageToken resp) w2
            else (Ok false, w2)
        | (Raise x, w2) => (Raise x, w2)
        end
    end.
Proof.
  cbn [pages]. unfold mbind, M_bind, emit, answer, lift, page_items, has_token.
  destruct out as [resp | x]; [| reflexivity].
  cbn beta iota zeta.
  destruct (scan now (default [] (items resp)) _) as [[[|] | x] w2];
    try reflexivity.
  destruct (truthy (nextPageToken resp)); reflexivity.
Qed.

(** Examining a page only appends [Examined] entries to the log. *)
Lemma scan_log (now : datetime) (evs : list event) (w : world) :
  exists seen, snd (scan now evs w) = set_log (log w ++ map Examined seen) w.
Proof.
  revert w. induction evs as [| ev evs IH]; intros w.
  - exists []. cbn. rewrite app_nil_r. destruct w; reflexivity.
  - rewrite scan_cons. cbn zeta.
    destruct (event_is_now ev now) as [[|] | x].
    + exists [ev]. reflexivity.
    + destruct (IH (set_log (log w ++ [Examined ev]) w)) as [seen ->].
      exists (ev :: seen). cbn. rewrite <- app_assoc. reflexivity.
    + exists [ev]. reflexivity.
Qed.

Lemma scan_quiet (now : datetime) (evs : list event) (w : world) :
  forallb (not_live now) evs = true ->
  scan now evs w = (Ok false, set_log (log w ++ map Examined evs) w).
Proof.
  revert w. induction evs as [| ev evs IH]; intros w Hq.
  - cbn. rewrite app_nil_r. destruct w; reflexivity.
  - cbn [forallb] in Hq. apply andb_true_iff in Hq as [Hev Hq].
    rewrite scan_cons. cbn zeta. unfold not_live in Hev.
    destruct (event_is_now ev now) as [[|] | x]; try discriminate.
    rewrite (IH _ Hq). cbn. rewrite <- app_assoc. reflexivity.
Qed.

Lemma scan_hit (now : datetime) (pre post : list event) (ev : event) (w : world) :
  forallb (not_live now) pre = true ->
  live now ev = true ->
  scan now (pre ++ ev :: post) w =
    (Ok true, set_log (log w ++ map Examined (pre ++ [ev])) w).
Proof.
  revert w. induction pre as [| ev' pre IH]; intros w Hq Hev.
  - cbn [app]. rewrite scan_cons. cbn zeta. unfold live in Hev.
    destruct (event_is_now ev now) as [[|] | x]; try discriminate.
    reflexivity.
  - cbn [forallb] in Hq. apply andb_true_iff in Hq as [Hev' Hq].
    cbn [app]. rewrite scan_cons. cbn zeta. unfold not_live in Hev'.
    destruct (event_is_now ev' now) as [[|] | x]; try discriminate.
    rewrite (IH _ Hq Hev). cbn. rewrite <- app_assoc. reflexivity.
Qed.

(** Reading a complete listing in which nothing is live: every page is
    requested, every event examined, and the answer is false. *)
Lemma pages_chain (request_for : option string -> request) (now : datetime)
    (ps : list response) (rest : list (result response))
    (tok : option string) (w : world) :
  chained ps = true ->
  quiet now ps = true ->
  pages request_for now (map Ok ps ++ rest) tok w =
    (Ok false,
     set_service rest (set_log (log w ++ chain_log request_for tok ps) w)).
Proof.
  revert tok w. induction ps as [| p ps IH]; intros tok w Hc Hq;
    [discriminate |].
  cbn [quiet forallb] in Hq. apply andb_true_iff in Hq as [Hp Hq].
  cbn [map app]. rewrite pages_cons. cbn zeta.
  rewrite (scan_quiet _ _ _ Hp).
  destruct ps as [| p' ps].
  - cbn [chained] in Hc. apply negb_true_iff in Hc. rewrite Hc.
    cbn. rewrite app_nil_r, <- app_assoc. reflexivity.
  - cbn [chained] in Hc. apply andb_true_iff in Hc as [Ht Hc]. rewrite Ht.
    rewrite (IH _ _ Hc Hq).
    cbn. rewrite <- !app_assoc. reflexivity.
Qed.

(** Reading pages in which nothing is live and then a page with a live
    event: the answer is true at that event and the rest of the listing
    is never asked for. *)
Lemma pages_hit (request_for : option string -> request) (now : datetime)
    (ps : list response) (p : response) (pre post : list event) (ev : event)
    (rest : list (result response)) (tok : option string) (w : world) :
  forallb has_token ps = true ->
  quiet now ps = true ->
  page_items p = (pre ++ ev :: post)%list ->
  forallb (not_live now) pre = true ->
  live now ev = true ->
  pages request_for now (map Ok ps ++ Ok p :: rest) tok w =
    (Ok true,
     set_service rest
       (set_log (log w ++ chain_log request_for tok ps
                 ++ ListEvents (request_for (token_after tok ps))
                    :: map Examined (pre ++ [ev])) w)).
Proof.
  intros Ht Hq Hp Hpre Hev. revert tok w Ht Hq.
  induction ps as [| p0 ps IH]; intros tok w Ht Hq.
  - cbn [map app]. rewrite pages_cons. cbn zeta.
    rewrite Hp, (scan_hit _ _ _ _ _ Hpre Hev).
    cbn. rewrite <- app_assoc. reflexivity.
  - cbn [quiet forallb] in Hq, Ht.
    apply andb_true_iff in Hq as [Hp0 Hq].
    apply andb_true_iff in Ht as [Ht0 Ht].
    cbn [map app]. rewrite pages_cons. cbn zeta.
    rewrite (scan_quiet _ _ _ Hp0), Ht0.
    rewrite (IH _ _ Ht Hq).
    cbn. rewrite <- !app_assoc. reflexivity.
Qed.

Lemma requests_app (l1 l2 : list io) :
  requests (l1 ++ l2) = (requests l1 ++ requests l2)%list.
Proof. apply omap_app. Qed.

Lemma requests_examined (evs : list event) : requests (map Examined evs) = [].
Proof. induction evs as [| ev evs IH]; [reflexivity | exact IH]. Qed.

Lemma reads_app (l1 l2 : list io) : reads (l1 ++ l2) = (reads l1 ++ reads l2)%list.
Proof. apply omap_app. Qed.

Lemma reads_examined (evs : list event) : reads (map Examined evs) = [].
Proof. induction evs as [| ev evs IH]; [reflexivity | exact IH]. Qed.

Lemma examined_app (l1 l2 : list io) :
  examined (l1 ++ l2) = (examined l1 ++ examined l2)%list.
Proof. apply omap_app. Qed.

Lemma examined_map (evs : list event) : examined (map Examined evs) = evs.
Proof. induction evs as [| ev evs IH]; [reflexivity | cbn; f_equal; exact IH]. Qed.

(** Whatever the backend answers, every request of the loop is built by
    [request_for], the first one from the token in hand. *)
Lemma pages_requests (request_for : option string -> request) (now : datetime)
    (script : list (result response)) (tok : option string) (w : world) :
  exists toks,
    requests (log (snd (pages request_for now script tok w))) =
      (requests (log w) ++ map request_for (tok :: toks))%list.
Proof.
  revert tok w. induction script as [| out rest IH]; intros tok w.
  - exists []. rewrite pages_nil. cbn [snd set_log log]. apply requests_app.
  - rewrite pages_cons. cbn zeta.
    set (w1 := set_service rest _).
    assert (Hw1 : requests (log w1) =
                  (requests (log w) ++ [request_for tok])%list)
      by apply requests_app.
    destruct out as [resp | x]; [| exists []; exact Hw1].
    destruct (scan_log now (page_items resp) w1) as [seen Hseen].
    destruct (scan now (page_items resp) w1) as [r w2]. cbn [snd] in Hseen.
    assert (Hw2 : requests (log w2) =
                  (requests (log w) ++ [request_for tok])%list).
    { rewrite Hseen. cbn [set_log log].
      rewrite requests_app, requests_examined, app_nil_r. exact Hw1. }
    destruct r as [[|] | x]; try (exists []; exact Hw2).
    destruct (has_token resp); [| exists []; exact Hw2].
    destruct (IH (nextPageToken resp) w2) as [toks Htoks].
    exists (nextPageToken resp :: toks).
    rewrite Htoks, Hw2, <- app_assoc. reflexivity.
Qed.

(** The loop reads no file. *)
Lemma pages_reads (request_for : option string -> request) (now : datetime)
    (script : list (result response)) (tok : option string) (w : world) :
  reads (log (snd (pages request_for now script tok w))) = reads (log w).
Proof.
  revert tok w. induction script as [| out rest IH]; intros tok w.
  - rewrite pages_nil. cbn [snd set_log log]. rewrite reads_app. apply app_nil_r.
  - rewrite pages_cons. cbn zeta.
    set (w1 := set_service rest _).
    assert (Hw1 : reads (log w1) = reads (log w)).
    { subst w1. cbn [set_service set_log log]. rewrite reads_app. apply app_nil_r. }
    destruct out as [resp | x]; [| exact Hw1].
    destruct (scan_log now (page_items resp) w1) as [seen Hseen].
    destruct (scan now (page_items resp) w1) as [r w2]. cbn [snd] in Hseen.
    assert (Hw2 : reads (log w2) = reads (log w)).
    { rewrite Hseen. cbn [set_log log].
      rewrite reads_app, reads_examined, app_nil_r. exact Hw1. }
    destruct r as [[|] | x]; try exact Hw2.
    destruct (has_token resp); [| exact Hw2].
    rewrite IH. exact Hw2.
Qed.

Lemma datetime_range_spec (us : Z) :
  in_datetime_range us = true <->
  -62135596800000000 <= us <= 253402300799999999.
Proof.
  unfold in_datetime_range.
  change Civil.MIN_WALL with (-62135596800000000).
  change Civil.MAX_WALL with 253402300799999999.
  rewrite andb_true_iff, !Z.leb_le. reflexivity.
Qed.

Lemma timedelta_minutes_ok (now m : Z) :
  in_datetime_range now = true ->
  in_datetime_range (now - m * Civil.us_per_minute) = true ->
  timedelta_minutes m = Ok (m * Civil.us_per_minute).
Proof.
  rewrite !datetime_range_spec. intros Hn Hm.
  unfold timedelta_minutes. cbn zeta.
  change Civil.MIN_DELTA with (-86399999913600000000).
  change Civil.MAX_DELTA with 86399999999999999999.
  replace ((-86399999913600000000 <=? m * Civil.us_per_minute)
           && (m * Civil.us_per_minute <=? 86399999999999999999))
    with true; [reflexivity |].
  symmetry. rewrite andb_true_iff, !Z.leb_le. lia.
Qed.

(** With credentials at hand and a representable window, [check_is_live]
    is the loop started without a token on the window's request. *)
Lemma check_is_live_ready (calendar_id : string) (m : Z) (w : world) :
  credentials w = true ->
  window_ok (clock w) m = true ->
  check_is_live calendar_id m w =
    pages (window_request calendar_id (clock w) m)
      {| wall := clock w; tzinfo := Some 0 |} (service w) None
      (set_log (log w ++ [DiscoverCredentials]) w).
Proof.
  intros Hc Hw. unfold window_ok in Hw.
  apply andb_true_iff in Hw as [Hw Hmax].
  apply andb_true_iff in Hw as [Hnow Hmin].
  unfold check_is_live, get_credentials, pending.
  unfold mbind, M_bind, emit, discover, datetime_now_utc, lift.
  cbn [set_log credentials clock service log]. rewrite Hc.
  rewrite (timedelta_minutes_ok _ _ Hnow Hmin).
  change (timedelta_minutes 1) with (Ok (A := Z) (1 * Civil.us_per_minute)).
  unfold result_bind, datetime_sub, datetime_add. cbn [wall tzinfo].
  change (clock (set_log (log w ++ [DiscoverCredentials]) w)) with (clock w).
  change (service (set_log (log w ++ [DiscoverCredentials]) w)) with (service w).
  rewrite Hmin, Hmax. reflexivity.
Qed.

Lemma requests_chain_log (request_for : option string -> request)
    (tok : option string) (ps : list response) :
  (requests (chain_log request_for tok ps)
   ++ [request_for (token_after tok ps)])%list
  = map request_for (tok :: map nextPageToken ps).
Proof.
  revert tok. induction ps as [| p ps IH]; intros tok; [reflexivity |].
  cbn [chain_log]. change (ListEvents (request_for tok) :: ?l)
    with ([ListEvents (request_for tok)] ++ l)%list.
  rewrite !requests_app, requests_examined.
  cbn [app map]. change (token_after tok (p :: ps))
    with (token_after (nextPageToken p) ps).
  change (requests [ListEvents (request_for tok)]) with [request_for tok].
  cbn [app]. f_equal. apply IH.
Qed.

Lemma requests_chain_log_complete (request_for : option string -> request)
    (tok : option string) (ps : list response) :
  ps <> [] ->
  requests (chain_log request_for tok ps)
  = map request_for (tok :: map nextPageToken (removelast ps)).
Proof.
  revert tok. induction ps as [| p ps IH]; intros tok Hne; [contradiction |].
  cbn [chain_log]. change (ListEvents (request_for tok) :: ?l)
    with ([ListEvents (request_for tok)] ++ l)%list.
  rewrite !requests_app, requests_examined.
  change (requests [ListEvents (request_for tok)]) with [request_for tok].
  cbn [app]. destruct ps as [| p' ps]; [reflexivity |].
  rewrite IH by discriminate. reflexivity.
Qed.

Lemma examined_chain_log (request_for : option string -> request)
    (tok : option string) (ps : list response) :
  examined (chain_log request_for tok ps) = concat (map page_items ps).
Proof.
  revert tok. induction ps as [| p ps IH]; intros tok; [reflexivity |].
  cbn [chain_log]. change (ListEvents (request_for tok) :: ?l)
    with ([ListEvents (request_for tok)] ++ l)%list.
  rewrite !examined_app, examined_map, IH. reflexivity.
Qed.

Lemma chained_nonempty (ps : list response) : chained ps = true -> ps <> [].
Proof. destruct ps; [discriminate | discriminate]. Qed.

(** C3. When the backend's listing is a complete chain of pages in which
    no event is live, [check_is_live] asks for a page as long as the
    previous one named a successor (passing that token on), stops at the
    page that names none, examines every event of every page, in order,
    and answers false. *)
Theorem check_is_live_pagination_complete (calendar_id : string) (m : Z)
    (w : world) (ps : list response) (rest : list (result response)) :
  credentials w = true ->
  window_ok (clock w) m = true ->
  service w = (map Ok ps ++ rest)%list ->
  chained ps = true ->
  quiet {| wall := clock w; tzinfo := Some 0 |} ps = true ->
  fst (check_is_live calendar_id m w) = Ok false
  /\ service (snd (check_is_live calendar_id m w)) = rest
  /\ requests (log (snd (check_is_live calendar_id m w)))
     = (requests (log w)
        ++ map (window_request calendar_id (clock w) m)
             (None :: map nextPageToken (removelast ps)))%list
  /\ examined (log (snd (check_is_live calendar_id m w)))
     = (examined (log w) ++ concat (map page_items ps))%list.
Proof.
  intros Hc Hw Hs Hch Hq.
  rewrite (check_is_live_ready _ _ _ Hc Hw), Hs.
  rewrite (pages_chain _ _ _ _ _ _ Hch Hq).
  cbn [fst snd set_service set_log service log].
  repeat split.
  - rewrite !requests_app.
    rewrite (requests_chain_log_complete _ _ _ (chained_nonempty _ Hch)).
    cbn. rewrite app_nil_r. reflexivity.
  - rewrite !examined_app, examined_chain_log.
    cbn. rewrite app_nil_r. reflexivity.
Qed.

(** C4. [check_is_live] answers true at the first live event it meets and
    asks the backend for nothing more: the pages after the current one
    are left unrequested, so a live event on the first page means a
    single request. *)
Theorem check_is_live_short_circuit (calendar_id : string) (m : Z)
    (w : world) (ps : list response) (p : response)
    (pre post : list event) (ev : event) (rest : list (result response)) :
  credentials w = true ->
  window_ok (clock w) m = true ->
  service w = (map Ok ps ++ Ok p :: rest)%list ->
  forallb has_token ps = true ->
  quiet {| wall := clock w; tzinfo := Some 0 |} ps = true ->
  page_items p = (pre ++ ev :: post)%list ->
  forallb (not_live {| wall := clock w; tzinfo := Some 0 |}) pre = true ->
  live {| wall := clock w; tzinfo := Some 0 |} ev = true ->
  fst (check_is_live calendar_id m w) = Ok true
  /\ service (snd (check_is_live calendar_id m w)) = rest
  /\ requests (log (snd (check_is_live calendar_id m w)))
     = (requests (log w)
        ++ map (window_request calendar_id (clock w) m)
             (None :: map nextPageToken ps))%list
  /\ examined (log (snd (check_is_live calendar_id m w)))
     = (examined (log w) ++ concat (map page_items ps) ++ pre ++ [ev])%list.
Proof.
  intros Hc Hw Hs Ht Hq Hp Hpre Hev.
  rewrite (check_is_live_ready _ _ _ Hc Hw), Hs.
  rewrite (pages_hit _ _ _ _ _ _ _ _ _ _ Ht Hq Hp Hpre Hev).
  cbn [fst snd set_service set_log service log].
  repeat split.
  - change (ListEvents ?r :: ?l) with ([ListEvents r] ++ l)%list.
    rewrite !requests_app, requests_examined, app_nil_r.
    change (requests [ListEvents ?r]) with [r].
    rewrite requests_chain_log. reflexivity.
  - change (ListEvents ?r :: ?l) with ([ListEvents r] ++ l)%list.
    rewrite !examined_app, examined_chain_log, examined_map.
    cbn [examined omap app]. rewrite ?app_nil_r. reflexivity.
Qed.

(** C8, as the code has it. For every lookback [m] whose window bounds
    (now minus [m] minutes, now plus one minute) are [datetime] values,
    [check_is_live] queries the backend, first without a token, and every
    request it sends carries window start now - [m] minutes and window
    end now + 1 minute. *)
Theorem check_is_live_query_window (calendar_id : string) (m : Z) (w : world) :
  credentials w = true ->
  window_ok (clock w) m = true ->
  exists toks : list (option string),
    requests (log (snd (check_is_live calendar_id m w)))
    = (requests (log w)
       ++ map (window_request calendar_id (clock w) m) (None :: toks))%list
    /\ Forall (fun req =>
                 timeMin req
                 = Iso.isoformat {| wall := clock w - m * Civil.us_per_minute;
                                    tzinfo := Some 0 |}
                 /\ timeMax req
                    = Iso.isoformat {| wall := clock w + 1 * Civil.us_per_minute;
                                       tzinfo := Some 0 |})
         (map (window_request calendar_id (clock w) m) (None :: toks)).
Proof.
  intros Hc Hw.
  rewrite (check_is_live_ready _ _ _ Hc Hw).
  destruct (pages_requests (window_request calendar_id (clock w) m)
              {| wall := clock w; tzinfo := Some 0 |} (service w) None
              (set_log (log w ++ [DiscoverCredentials]) w)) as [toks Htoks].
  exists toks. split.
  - rewrite Htoks. cbn [set_log log].
    rewrite requests_app. cbn [requests omap]. rewrite app_nil_r. reflexivity.
  - apply List.Forall_forall. intros req Hin.
    apply in_map_iff in Hin as (tok & <- & _). split; reflexivity.
Qed.

(** *** The resolver *)

Lemma bind_run {A B : Type} (m : M A) (f : A -> M B) (w : world) :
  (m ≫= f) w =
    match m w with
    | (Ok a, w') => f a w'
    | (Raise e, w') => (Raise e, w')
    end.
Proof. reflexivity. Qed.

Lemma load_config_run (path : string) (w : world) :
  load_config path w =
    let w1 := set_log (log w ++ [ReadFile path]) w in
    match files w !! path with
    | Some (Json c) => (Ok c, w1)
    | Some Garbage => (Raise (JSONDecodeError path), w1)
    | None => (Raise (FileNotFoundError path), w1)
    end.
Proof.
  unfold load_config, mbind, M_bind, emit, read_json. cbn [set_log files].
  destruct (files w !! path) as [[c |] |]; reflexivity.
Qed.

Lemma check_is_live_reads (calendar_id : string) (m : Z) (w : world) :
  reads (log (snd (check_is_live calendar_id m w))) = reads (log w).
Proof.
  assert (Hlog : reads (log (set_log (log w ++ [DiscoverCredentials]) w))
                 = reads (log w)).
  { cbn [set_log log]. rewrite reads_app. apply app_nil_r. }
  unfold check_is_live, get_credentials, pending.
  unfold mbind, M_bind, emit, discover, datetime_now_utc, lift.
  cbn [set_log credentials clock service log].
  destruct (credentials w); [| exact Hlog].
  destruct (result_bind _ _ _ (timedelta_minutes m)) as [time_min | x];
    [| exact Hlog].
  destruct (result_bind _ _ _ (timedelta_minutes 1)) as [time_max | x];
    [| exact Hlog].
  rewrite pages_reads. exact Hlog.
Qed.

(** C6. A supplied (non-empty) explicit identifier is returned unchanged,
    whether or not a sheet key comes with it, and the world is left as it
    was: the configuration file is not read, neither by the resolver nor
    by the rest of the run. *)
Theorem resolve_explicit_identifier (sheet_key : option string)
    (calendar_id path : string) (w : world) :
  calendar_id <> EmptyString ->
  resolve_calendar_id sheet_key (Some calendar_id) path w = (Ok calendar_id, w)
  /\ forall a : args,
       arg_calendar_id a = Some calendar_id ->
       reads (log (snd (main a w))) = reads (log w).
Proof.
  intros Hne.
  assert (Hres : forall sk p,
    resolve_calendar_id sk (Some calendar_id) p w = (Ok calendar_id, w)).
  { intros sk p. destruct calendar_id; [contradiction | reflexivity]. }
  split; [apply Hres |].
  intros a Ha. unfold main.
  rewrite bind_run. unfold abspath.
  rewrite bind_run, Ha, Hres, bind_run.
  pose proof (check_is_live_reads calendar_id (arg_lookback_minutes a) w) as Hr.
  destruct (check_is_live calendar_id (arg_lookback_minutes a) w)
    as [[is_live | x] w']; cbn [snd] in *; [| exact Hr].
  unfold emit. cbn [snd set_log log].
  rewrite reads_app, Hr. apply app_nil_r.
Qed.

(** C7. Without an explicit identifier, a sheet key that the loaded
    configuration does not resolve makes [resolve_calendar_id] exit with
    the "calendarId not found" message naming the key; the only effect
    is the read of the configuration file, and the run ends there, with
    no credential discovery and no request to the backend. *)
Theorem resolve_unknown_sheet (key : string) (calendar_id_arg : option string)
    (path : string) (c : config) (w : world) :
  truthy calendar_id_arg = false ->
  key <> EmptyString ->
  files w !! path = Some (Json c) ->
  unresolved c key ->
  resolve_calendar_id (Some key) calendar_id_arg path w
  = (Raise (SystemExit ("calendarId not found for sheet " +:+ key
                        +:+ " in " +:+ path)),
     set_log (log w ++ [ReadFile path]) w)
  /\ network (log (set_log (log w ++ [ReadFile path]) w)) = network (log w)
  /\ forall a : args,
       arg_sheet a = Some key ->
       arg_calendar_id a = calendar_id_arg ->
       os_path_abspath w (arg_config a) = path ->
       main a w
       = (Raise (SystemExit ("calendarId not found for sheet " +:+ key
                             +:+ " in " +:+ path)),
          set_log (log w ++ [ReadFile path]) w).
Proof.
  intros Hid Hkey Hfile Hun.
  assert (Hres : resolve_calendar_id (Some key) calendar_id_arg path w
    = (Raise (SystemExit ("calendarId not found for sheet " +:+ key
                          +:+ " in " +:+ path)),
       set_log (log w ++ [ReadFile path]) w)).
  { unfold resolve_calendar_id.
    assert (Hfall : match calendar_id_arg with
                    | Some (String _ _) => False
                    | _ => True
                    end).
    { destruct calendar_id_arg as [[| a s] |]; simpl in Hid;
        [exact I | discriminate | exact I]. }
    destruct key as [| k0 key']; [contradiction |].
    set (key := String k0 key') in *.
    assert (Hload : load_config path w
                    = (Ok c, set_log (log w ++ [ReadFile path]) w)).
    { rewrite load_config_run, Hfile. reflexivity. }
    assert (Hcond : negb (dict_truthy (default ∅ (c !! "sheets") !! key))
                    || negb (truthy (default ∅ (c !! "sheets") !! key
                                      ≫= (.!! "calendarId"))) = true).
    { unfold unresolved in Hun. cbn zeta in Hun.
      destruct Hun as [-> | (sheet_cfg & -> & Hcal)]; [reflexivity |].
      apply orb_true_iff. right. apply negb_true_iff.
      apply truthy_false. exact Hcal. }
    destruct calendar_id_arg as [[| a s] |]; try contradiction;
      rewrite bind_run, Hload; cbn zeta; rewrite Hcond; reflexivity. }
  split; [exact Hres |]. split.
  - cbn [set_log log]. unfold network. rewrite List.filter_app.
    cbn. apply app_nil_r.
  - intros a Hsheet Harg Hpath. unfold main.
    rewrite bind_run. unfold abspath.
    rewrite bind_run, Hsheet, Harg, Hpath, Hres. reflexivity.
Qed.

(** C9. An explicit identifier that is the empty string counts as
    absent: the resolver does what it does without an identifier, never
    returns the empty string, exits with the usage message when the sheet
    key is absent or empty too, and otherwise goes on to read the
    configuration file. *)
Theorem resolve_empty_identifier (sheet_key : option string) (path : string)
    (w : world) :
  resolve_calendar_id sheet_key (Some EmptyString) path w
  = resolve_calendar_id sheet_key None path w
  /\ fst (resolve_calendar_id sheet_key (Some EmptyString) path w) <> Ok EmptyString
  /\ (truthy sheet_key = false ->
      resolve_calendar_id sheet_key (Some EmptyString) path w
      = (Raise (SystemExit "either --calendar-id or --sheet must be provided"),
         w))
  /\ (truthy sheet_key = true ->
      snd (resolve_calendar_id sheet_key (Some EmptyString) path w)
      = set_log (log w ++ [ReadFile path]) w).
Proof.
  split; [reflexivity |].
  destruct sheet_key as [[| k0 key'] |].
  - split; [discriminate |]. split; [reflexivity | discriminate].
  - set (key := String k0 key').
    assert (Hgoal :
      fst (resolve_calendar_id (Some key) (Some EmptyString) path w) <> Ok EmptyString
      /\ snd (resolve_calendar_id (Some key) (Some EmptyString) path w)
         = set_log (log w ++ [ReadFile path]) w).
    { unfold resolve_calendar_id. subst key. cbv beta iota.
      rewrite bind_run, load_config_run. cbn zeta.
      destruct (files w !! path) as [[c |] |];
        [| split; [discriminate | reflexivity]
         | split; [discriminate | reflexivity]].
      cbn zeta.
      destruct (default ∅ (c !! "sheets") !! String k0 key')
        as [sheet_cfg |]; [| split; [discriminate | reflexivity]].
      destruct (negb (dict_truthy (Some sheet_cfg))); cbn [orb];
        [split; [discriminate | reflexivity] |].
      cbn [mbind option_bind default].
      unfold lift, getitem.
      change (id sheet_cfg) with sheet_cfg.
      destruct (sheet_cfg !! "calendarId") as [[| a s] |];
        cbn; (split; [discriminate | reflexivity]). }
    destruct Hgoal as [Hfst Hsnd].
    split; [exact Hfst |]. split; [discriminate | intros _; exact Hsnd].
  - split; [discriminate |]. split; [reflexivity | discriminate].
Qed.

(** *** More on the fetch loop *)

(** How a scan of a page can end: at the first live event, at the first
    event the evaluator fails on, or at the end of a page without either. *)
Lemma scan_outcome (now : datetime) (evs : list event) (w : world) :
  exists seen,
    snd (scan now evs w) = set_log (log w ++ map Examined seen) w
    /\ match fst (scan now evs w) with
       | Ok true =>
           exists pre ev post,
             evs = (pre ++ ev :: post)%list /\ seen = (pre ++ [ev])%list
             /\ forallb (not_live now) pre = true /\ live now ev = true
       | Ok false => seen = evs /\ forallb (not_live now) evs = true
       | Raise x =>
           exists pre ev post,
             evs = (pre ++ ev :: post)%list /\ seen = (pre ++ [ev])%list
             /\ forallb (not_live now) pre = true
             /\ event_is_now ev now = Raise x
       end.
Proof.
  revert w. induction evs as [| ev evs IH]; intros w.
  - exists []. cbn. rewrite app_nil_r. split; [destruct w; reflexivity | auto].
  - rewrite scan_cons. cbn zeta.
    destruct (event_is_now ev now) as [[|] | x] eqn:Hev.
    + exists [ev]. split; [reflexivity |]. cbn [fst].
      exists [], ev, evs. unfold live. rewrite Hev. auto.
    + destruct (IH (set_log (log w ++ [Examined ev]) w)) as (seen & Hsnd & Hfst).
      exists (ev :: seen). split.
      { rewrite Hsnd. cbn. rewrite <- app_assoc. reflexivity. }
      assert (Hnl : not_live now ev = true) by (unfold not_live; rewrite Hev; reflexivity).
      destruct (fst (scan now evs (set_log (log w ++ [Examined ev]) w)))
        as [[|] | x].
      * destruct Hfst as (pre & ev' & post & -> & -> & Hpre & Hlive).
        exists (ev :: pre), ev', post. cbn [forallb app]. rewrite Hnl, Hpre. auto.
      * destruct Hfst as [-> Hall]. cbn [forallb]. rewrite Hnl, Hall. auto.
      * destruct Hfst as (pre & ev' & post & -> & -> & Hpre & Hraise).
        exists (ev :: pre), ev', post. cbn [forallb app]. rewrite Hnl, Hpre. auto.
    + exists [ev]. split; [reflexivity |]. cbn [fst].
      exists [], ev, evs. auto.
Qed.

(** What the backend must have answered for the loop to return. *)
Lemma pages_outcome (request_for : option string -> request) (now : datetime)
    (script : list (result response)) (tok : option string) (w : world) :
  match fst (pages request_for now script tok w) with
  | Ok true =>
      exists ps p pre ev post rest,
        script = (map Ok ps ++ Ok p :: rest)%list
        /\ forallb has_token ps = true /\ quiet now ps = true
        /\ page_items p = (pre ++ ev :: post)%list
        /\ forallb (not_live now) pre = true /\ live now ev = true
  | Ok false =>
      exists ps rest,
        script = (map Ok ps ++ rest)%list
        /\ chained ps = true /\ quiet now ps = true
  | Raise _ => True
  end.
Proof.
  revert tok w. induction script as [| out script IH]; intros tok w.
  - rewrite pages_nil. exact I.
  - rewrite pages_cons. cbn zeta.
    destruct out as [resp | x]; [| exact I].
    set (w1 := set_service script _).
    destruct (scan_outcome now (page_items resp) w1) as (seen & _ & Hfst).
    destruct (scan now (page_items resp) w1) as [[[|] | x] w2]; cbn [fst] in Hfst.
    + destruct Hfst as (pre & ev & post & Hitems & _ & Hpre & Hlive).
      exists [], resp, pre, ev, post, script.
      split; [reflexivity |]. split; [reflexivity |]. split; [reflexivity |].
      split; [exact Hitems |]. split; [exact Hpre | exact Hlive].
    + destruct Hfst as [_ Hq].
      destruct (has_token resp) eqn:Htok.
      * specialize (IH (nextPageToken resp) w2).
        destruct (fst (pages request_for now script (nextPageToken resp) w2))
          as [[|] | x]; [| | exact I].
        -- destruct IH as (ps & p & pre & ev & post & rest & -> & Ht & Hqs & Hrest).
           exists (resp :: ps), p, pre, ev, post, rest.
           cbn [map app forallb quiet]. rewrite Htok, Ht, Hq.
           split; [reflexivity |]. split; [reflexivity |].
           split; [exact Hqs | exact Hrest].
        -- destruct IH as (ps & rest & -> & Hc & Hqs).
           exists (resp :: ps), rest.
           split; [reflexivity |]. split.
           ++ destruct ps as [| p' ps]; [discriminate |].
              cbn [chained]. rewrite Htok. exact Hc.
           ++ cbn [quiet forallb]. rewrite Hq. exact Hqs.
      * exists [resp], script.
        split; [reflexivity |]. split.
        -- cbn [chained]. rewrite Htok. reflexivity.
        -- cbn [quiet forallb]. rewrite Hq. reflexivity.
    + exact I.
Qed.

(** The loop only appends list requests and examined events to the log. *)
Lemma pages_log (request_for : option string -> request) (now : datetime)
    (script : list (result response)) (tok : option string) (w : world) :
  exists l,
    log (snd (pages request_for now script tok w)) = (log w ++ l)%list
    /\ forallb is_fetch l = true.
Proof.
  revert tok w. induction script as [| out rest IH]; intros tok w.
  - rewrite pages_nil. exists [ListEvents (request_for tok)]. auto.
  - rewrite pages_cons. cbn zeta.
    set (w1 := set_service rest _).
    assert (Hw1 : log w1 = (log w ++ [ListEvents (request_for tok)])%list)
      by reflexivity.
    destruct out as [resp | x];
      [| exists [ListEvents (request_for tok)]; auto].
    destruct (scan_log now (page_items resp) w1) as [seen Hseen].
    assert (Hfseen : forallb is_fetch (ListEvents (request_for tok)
                                       :: map Examined seen) = true).
    { cbn [forallb is_fetch andb]. clear.
      induction seen as [| ev seen IHs]; [reflexivity | exact IHs]. }
    destruct (scan now (page_items resp) w1) as [r w2]. cbn [snd] in Hseen.
    assert (Hw2 : log w2 = (log w ++ ListEvents (request_for tok)
                                     :: map Examined seen)%list).
    { rewrite Hseen. cbn [set_log log]. rewrite Hw1, <- app_assoc. reflexivity. }
    destruct r as [[|] | x]; try (eexists; split; [exact Hw2 | exact Hfseen]).
    destruct (has_token resp); [| eexists; split; [exact Hw2 | exact Hfseen]].
    destruct (IH (nextPageToken resp) w2) as (l & Hl & Hfl).
    exists ((ListEvents (request_for tok) :: map Examined seen) ++ l)%list.
    split.
    + rewrite Hl, Hw2, <- app_assoc. reflexivity.
    + rewrite forallb_app, Hfseen, Hfl. reflexivity.
Qed.

(** The three ways [check_is_live] can go: no credentials, a window that
    is not representable, or the loop on the window's request. *)
Lemma check_is_live_cases (calendar_id : string) (m : Z) (w : world) :
  (credentials w = false
   /\ check_is_live calendar_id m w
      = (Raise DefaultCredentialsError,
         set_log (log w ++ [DiscoverCredentials]) w))
  \/ (credentials w = true
      /\ check_is_live calendar_id m w
         = (Raise OverflowError, set_log (log w ++ [DiscoverCredentials]) w))
  \/ (credentials w = true
      /\ exists time_min time_max,
           check_is_live calendar_id m w
           = pages (list_request calendar_id time_min time_max)
               {| wall := clock w; tzinfo := Some 0 |} (service w) None
               (set_log (log w ++ [DiscoverCredentials]) w)).
Proof.
  unfold check_is_live, get_credentials, pending.
  unfold mbind, M_bind, emit, discover, datetime_now_utc, lift.
  cbn [set_log credentials clock service log].
  destruct (credentials w); [| left; auto].
  right.
  unfold timedelta_minutes, datetime_sub, datetime_add, result_bind.
  cbn [wall tzinfo].
  repeat match goal with
         | |- context [if ?c then _ else _] => destruct c
         end; auto.
  right. split; [reflexivity |]. eexists _, _. reflexivity.
Qed.

Lemma scan_raise (now : datetime) (pre post : list event) (ev : event)
    (x : exn) (w : world) :
  forallb (not_live now) pre = true ->
  event_is_now ev now = Raise x ->
  scan now (pre ++ ev :: post) w =
    (Raise x, set_log (log w ++ map Examined (pre ++ [ev])) w).
Proof.
  revert w. induction pre as [| ev' pre IH]; intros w Hq Hev.
  - cbn [app]. rewrite scan_cons. cbn zeta. rewrite Hev. reflexivity.
  - cbn [forallb] in Hq. apply andb_true_iff in Hq as [Hev' Hq].
    cbn [app]. rewrite scan_cons. cbn zeta. unfold not_live in Hev'.
    destruct (event_is_now ev' now) as [[|] | x']; try discriminate.
    rewrite (IH _ Hq Hev). cbn. rewrite <- app_assoc. reflexivity.
Qed.

(** Once an answer is taken, what the world held as pending answers
    before no longer matters. *)
Lemma pages_service (request_for : option string -> request) (now : datetime)
    (out : result response) (rest stale : list (result response))
    (tok : option string) (w : world) :
  pages request_for now (out :: rest) tok (set_service stale w)
  = pages request_for now (out :: rest) tok w.
Proof. rewrite !pages_cons. reflexivity. Qed.

(** Pages that name a successor and hold no live event are read through:
    the loop goes on with the next answer, the last token in hand. *)
Lemma pages_skip (request_for : option string -> request) (now : datetime)
    (ps : list response) (out : result response)
    (rest : list (result response)) (tok : option string) (w : world) :
  forallb has_token ps = true ->
  quiet now ps = true ->
  pages request_for now (map Ok ps ++ out :: rest) tok w =
    pages request_for now (out :: rest) (token_after tok ps)
      (set_log (log w ++ chain_log request_for tok ps) w).
Proof.
  revert tok w. induction ps as [| p ps IH]; intros tok w Ht Hq.
  - cbn [map app chain_log token_after fold_left].
    rewrite app_nil_r. destruct w; reflexivity.
  - cbn [quiet forallb] in Hq, Ht.
    apply andb_true_iff in Hq as [Hp Hq].
    apply andb_true_iff in Ht as [Ht0 Ht].
    cbn [map app]. rewrite pages_cons. cbn zeta.
    rewrite (scan_quiet _ _ _ Hp), Ht0.
    rewrite (IH _ _ Ht Hq).
    change (token_after tok (p :: ps)) with (token_after (nextPageToken p) ps).
    rewrite <- (pages_service request_for now out rest
                  (map Ok ps ++ out :: rest)
                  (token_after (nextPageToken p) ps)
                  (set_log (log w ++ chain_log request_for tok (p :: ps)) w)).
    f_equal. unfold set_log, set_service.
    cbn [log files os_path_abspath credentials clock service chain_log].
    f_equal. rewrite <- !app_assoc. reflexivity.
Qed.

Lemma quiet_concat (now : datetime) (ps : list response) :
  quiet now ps = true ->
  forallb (not_live now) (concat (map page_items ps)) = true.
Proof.
  induction ps as [| p ps IH]; [reflexivity |].
  cbn [quiet forallb map concat]. intros Hq.
  apply andb_true_iff in Hq as [Hp Hq].
  rewrite forallb_app, Hp. exact (IH Hq).
Qed.

Lemma not_live_no_live (now : datetime) (evs : list event) :
  forallb (not_live now) evs = true -> existsb (live now) evs = false.
Proof.
  induction evs as [| ev evs IH]; [reflexivity |].
  cbn [forallb existsb]. intros H. apply andb_true_iff in H as [Hev H].
  rewrite (IH H), orb_false_r. unfold not_live in Hev. unfold live.
  destruct (event_is_now ev now) as [[|] | x]; try discriminate; reflexivity.
Qed.

Lemma evaluates_not_live (now : datetime) (evs : list event) :
  forallb (evaluates now) evs = true ->
  existsb (live now) evs = false ->
  forallb (not_live now) evs = true.
Proof.
  induction evs as [| ev evs IH]; [reflexivity |].
  cbn [forallb existsb]. intros He Hl.
  apply andb_true_iff in He as [Hev He].
  apply orb_false_iff in Hl as [Hlev Hl].
  rewrite (IH He Hl), andb_true_r.
  unfold evaluates in Hev. unfold live in Hlev. unfold not_live.
  destruct (event_is_now ev now) as [[|] | x]; try discriminate; reflexivity.
Qed.

(** The first live event of a list on which the evaluator never fails. *)
Lemma first_live (now : datetime) (evs : list event) :
  forallb (evaluates now) evs = true ->
  existsb (live now) evs = true ->
  exists pre ev post,
    evs = (pre ++ ev :: post)%list
    /\ forallb (not_live now) pre = true /\ live now ev = true.
Proof.
  induction evs as [| ev evs IH]; [discriminate |].
  cbn [forallb existsb]. intros He Hl.
  apply andb_true_iff in He as [Hev He].
  destruct (live now ev) eqn:Hlev.
  - exists [], ev, evs. auto.
  - cbn [orb] in Hl. destruct (IH He Hl) as (pre & ev' & post & -> & Hpre & Hlive).
    exists (ev :: pre), ev', post. cbn [forallb app]. rewrite Hpre, andb_true_r.
    split; [reflexivity |]. split; [| exact Hlive].
    unfold evaluates in Hev. unfold live in Hlev. unfold not_live.
    destruct (event_is_now ev now) as [[|] | x]; try discriminate; reflexivity.
Qed.

(** On a complete listing on which the evaluator never fails, the loop
    computes whether some event of the listing is live. *)
Lemma pages_decides (request_for : option string -> request) (now : datetime)
    (ps : list response) (rest : list (result response))
    (tok : option string) (w : world) :
  chained ps = true ->
  forallb (evaluates now) (concat (map page_items ps)) = true ->
  fst (pages request_for now (map Ok ps ++ rest) tok w)
  = Ok (existsb (live now) (concat (map page_items ps))).
Proof.
  revert tok w. induction ps as [| p ps IH]; intros tok w Hc He;
    [discriminate |].
  cbn [map concat] in *. rewrite forallb_app in He.
  apply andb_true_iff in He as [Hp He].
  rewrite existsb_app.
  cbn [app]. rewrite pages_cons. cbn zeta.
  destruct (existsb (live now) (page_items p)) eqn:Hl.
  - destruct (first_live _ _ Hp Hl) as (pre & ev & post & Hitems & Hpre & Hlive).
    rewrite Hitems, (scan_hit _ _ _ _ _ Hpre Hlive). reflexivity.
  - rewrite (scan_quiet _ _ _ (evaluates_not_live _ _ Hp Hl)).
    cbn [orb]. destruct ps as [| p' ps].
    + cbn [chained] in Hc. apply negb_true_iff in Hc. rewrite Hc. reflexivity.
    + cbn [chained] in Hc. apply andb_true_iff in Hc as [Ht Hc]. rewrite Ht.
      apply (IH _ _ Hc He).
Qed.

Lemma existsb_Permutation {A : Type} (f : A -> bool) (l l' : list A) :
  Permutation l l' -> existsb f l = existsb f l'.
Proof.
  induction 1 as [| a l l' _ IH | a b l | l l' l'' _ IH1 _ IH2]; cbn [existsb].
  - reflexivity.
  - rewrite IH. reflexivity.
  - destruct (f a), (f b); reflexivity.
  - rewrite IH1. exact IH2.
Qed.

Lemma live_true (now : datetime) (ev : event) :
  live now ev = true -> event_is_now ev now = Ok true.
Proof.
  unfold live. destruct (event_is_now ev now) as [[|] | x];
    try discriminate; reflexivity.
Qed.

(** X1. [check_is_live] never reports a calendar live without cause: when
    it answers true, the last event it examined is live now, and every
    event examined before it was found not live. *)
Theorem check_is_live_true_has_live_event (calendar_id : string) (m : Z)
    (w : world) :
  fst (check_is_live calendar_id m w) = Ok true ->
  exists seen ev,
    examined (log (snd (check_is_live calendar_id m w)))
    = (examined (log w) ++ seen ++ [ev])%list
    /\ forallb (not_live {| wall := clock w; tzinfo := Some 0 |}) seen = true
    /\ event_is_now ev {| wall := clock w; tzinfo := Some 0 |} = Ok true.
Proof.
  intros Hfst.
  destruct (check_is_live_cases calendar_id m w)
    as [[_ H] | [[_ H] | [_ (tmin & tmax & H)]]];
    rewrite H in *; try discriminate Hfst.
  pose proof (pages_outcome (list_request calendar_id tmin tmax)
                {| wall := clock w; tzinfo := Some 0 |} (service w) None
                (set_log (log w ++ [DiscoverCredentials]) w)) as Hout.
  rewrite Hfst in Hout.
  destruct Hout as (ps & p & pre & ev & post & rest & Hs & Ht & Hq & Hitems
                    & Hpre & Hlive).
  rewrite Hs, (pages_hit _ _ _ _ _ _ _ _ _ _ Ht Hq Hitems Hpre Hlive).
  cbn [snd set_service set_log log].
  exists (concat (map page_items ps) ++ pre)%list, ev.
  split; [| split].
  - change (ListEvents ?r :: ?l) with ([ListEvents r] ++ l)%list.
    rewrite !examined_app, examined_chain_log, examined_map.
    cbn [examined omap app]. rewrite ?app_nil_r, <- !app_assoc. reflexivity.
  - rewrite forallb_app, (quiet_concat _ _ Hq), Hpre. reflexivity.
  - exact (live_true _ _ Hlive).
Qed.

(** X2. [check_is_live] answers false only at the end of the listing: the
    answers it consumed are a complete chain of pages (each but the last
    names a successor), every event of those pages was examined, in order,
    and none of them is live now. *)
Theorem check_is_live_false_read_everything (calendar_id : string) (m : Z)
    (w : world) :
  fst (check_is_live calendar_id m w) = Ok false ->
  exists ps : list response,
    service w = (map Ok ps ++ service (snd (check_is_live calendar_id m w)))%list
    /\ chained ps = true
    /\ quiet {| wall := clock w; tzinfo := Some 0 |} ps = true
    /\ examined (log (snd (check_is_live calendar_id m w)))
       = (examined (log w) ++ concat (map page_items ps))%list.
Proof.
  intros Hfst.
  destruct (check_is_live_cases calendar_id m w)
    as [[_ H] | [[_ H] | [_ (tmin & tmax & H)]]];
    rewrite H in *; try discriminate Hfst.
  pose proof (pages_outcome (list_request calendar_id tmin tmax)
                {| wall := clock w; tzinfo := Some 0 |} (service w) None
                (set_log (log w ++ [DiscoverCredentials]) w)) as Hout.
  rewrite Hfst in Hout. destruct Hout as (ps & rest & Hs & Hc & Hq).
  exists ps. rewrite Hs, (pages_chain _ _ _ _ _ _ Hc Hq).
  cbn [snd set_service set_log service log].
  split; [reflexivity |]. split; [exact Hc |]. split; [exact Hq |].
  rewrite !examined_app, examined_chain_log.
  cbn [examined omap app]. rewrite app_nil_r. reflexivity.
Qed.

(** X3. On a complete listing on which the evaluator fails on no event,
    the answer of [check_is_live] is exactly whether some event of the
    listing is live now. *)
Theorem check_is_live_decides (calendar_id : string) (m : Z) (w : world)
    (ps : list response) (rest : list (result response)) :
  credentials w = true ->
  window_ok (clock w) m = true ->
  service w = (map Ok ps ++ rest)%list ->
  chained ps = true ->
  forallb (evaluates {| wall := clock w; tzinfo := Some 0 |})
    (concat (map page_items ps)) = true ->
  fst (check_is_live calendar_id m w)
  = Ok (existsb (live {| wall := clock w; tzinfo := Some 0 |})
          (concat (map page_items ps))).
Proof.
  intros Hc Hw Hs Hch He.
  rewrite (check_is_live_ready _ _ _ Hc Hw), Hs.
  apply (pages_decides _ _ _ _ _ _ Hch He).
Qed.

(** X4. The answer does not depend on the order of the events nor on how
    the backend cuts them into pages: two complete listings of the same
    events, in any order, get the same answer. *)
Theorem check_is_live_order_independent (calendar_id : string) (m : Z)
    (w w' : world) (ps ps' : list response) (rest rest' : list (result response)) :
  credentials w = true -> credentials w' = true ->
  clock w' = clock w ->
  window_ok (clock w) m = true ->
  service w = (map Ok ps ++ rest)%list ->
  service w' = (map Ok ps' ++ rest')%list ->
  chained ps = true -> chained ps' = true ->
  forallb (evaluates {| wall := clock w; tzinfo := Some 0 |})
    (concat (map page_items ps)) = true ->
  Permutation (concat (map page_items ps)) (concat (map page_items ps')) ->
  fst (check_is_live calendar_id m w) = fst (check_is_live calendar_id m w').
Proof.
  intros Hc Hc' Hclock Hw Hs Hs' Hch Hch' He Hperm.
  assert (He' : forallb (evaluates {| wall := clock w; tzinfo := Some 0 |})
                  (concat (map page_items ps')) = true).
  { apply forallb_forall. intros ev Hin.
    apply (proj1 (forallb_forall _ _) He).
    apply (Permutation_in _ (Permutation_sym Hperm) Hin). }
  rewrite (check_is_live_ready _ _ _ Hc Hw), Hs.
  rewrite <- Hclock in Hw.
  rewrite (check_is_live_ready _ _ _ Hc' Hw), Hs', Hclock.
  rewrite (pages_decides _ _ _ _ _ _ Hch He).
  rewrite (pages_decides _ _ _ _ _ _ Hch' He').
  f_equal. apply existsb_Permutation. exact Hperm.
Qed.

(** X5. Without credentials [check_is_live] raises the credential error
    right after the discovery: no request is sent and no answer of the
    backend is consumed; a run of [main] on an explicit identifier ends
    there, with nothing printed. *)
Theorem check_is_live_without_credentials (calendar_id : string) (m : Z)
    (w : world) :
  credentials w = false ->
  check_is_live calendar_id m w
  = (Raise DefaultCredentialsError, set_log (log w ++ [DiscoverCredentials]) w)
  /\ requests (log (snd (check_is_live calendar_id m w))) = requests (log w)
  /\ forall a : args,
       arg_calendar_id a = Some calendar_id ->
       calendar_id <> EmptyString ->
       arg_lookback_minutes a = m ->
       main a w
       = (Raise DefaultCredentialsError,
          set_log (log w ++ [DiscoverCredentials]) w).
Proof.
  intros Hc.
  assert (H : check_is_live calendar_id m w
              = (Raise DefaultCredentialsError,
                 set_log (log w ++ [DiscoverCredentials]) w)).
  { destruct (check_is_live_cases calendar_id m w)
      as [[_ H] | [[Hc' _] | [Hc' _]]]; [exact H | congruence | congruence]. }
  split; [exact H |]. split.
  - rewrite H. cbn [snd set_log log]. rewrite requests_app. apply app_nil_r.
  - intros a Ha Hne Hm. unfold main. rewrite bind_run. unfold abspath.
    rewrite bind_run, Ha.
    destruct calendar_id as [| c0 cid]; [contradiction |].
    cbn [resolve_calendar_id mret M_ret]. rewrite bind_run, Hm, H. reflexivity.
Qed.

(** X6. A failure of the backend on any page aborts the determination
    with that failure: the pages read before it give no partial answer,
    and the answers after it are not asked for. *)
Theorem check_is_live_transport_failure (calendar_id : string) (m : Z)
    (w : world) (ps : list response) (x : exn) (rest : list (result response)) :
  credentials w = true ->
  window_ok (clock w) m = true ->
  service w = (map Ok ps ++ Raise x :: rest)%list ->
  forallb has_token ps = true ->
  quiet {| wall := clock w; tzinfo := Some 0 |} ps = true ->
  fst (check_is_live calendar_id m w) = Raise x
  /\ service (snd (check_is_live calendar_id m w)) = rest
  /\ examined (log (snd (check_is_live calendar_id m w)))
     = (examined (log w) ++ concat (map page_items ps))%list.
Proof.
  intros Hc Hw Hs Ht Hq.
  rewrite (check_is_live_ready _ _ _ Hc Hw), Hs.
  rewrite (pages_skip _ _ _ _ _ _ _ Ht Hq), pages_cons.
  cbn [fst snd set_service set_log service log].
  split; [reflexivity |]. split; [reflexivity |].
  rewrite !examined_app, examined_chain_log.
  change (examined [DiscoverCredentials]) with (@nil event).
  change (examined [ListEvents ?r]) with (@nil event).
  rewrite !app_nil_r. reflexivity.
Qed.

(** X7. An event the evaluator fails on aborts the determination with the
    evaluator's error as soon as it is reached, whatever follows it on the
    page or in the listing, a live event included. *)
Theorem check_is_live_evaluator_failure (calendar_id : string) (m : Z)
    (w : world) (ps : list response) (p : response)
    (pre post : list event) (ev : event) (x : exn)
    (rest : list (result response)) :
  credentials w = true ->
  window_ok (clock w) m = true ->
  service w = (map Ok ps ++ Ok p :: rest)%list ->
  forallb has_token ps = true ->
  quiet {| wall := clock w; tzinfo := Some 0 |} ps = true ->
  page_items p = (pre ++ ev :: post)%list ->
  forallb (not_live {| wall := clock w; tzinfo := Some 0 |}) pre = true ->
  event_is_now ev {| wall := clock w; tzinfo := Some 0 |} = Raise x ->
  fst (check_is_live calendar_id m w) = Raise x
  /\ service (snd (check_is_live calendar_id m w)) = rest
  /\ examined (log (snd (check_is_live calendar_id m w)))
     = (examined (log w) ++ concat (map page_items ps) ++ pre ++ [ev])%list.
Proof.
  intros Hc Hw Hs Ht Hq Hitems Hpre Hev.
  rewrite (check_is_live_ready _ _ _ Hc Hw), Hs.
  rewrite (pages_skip _ _ _ _ _ _ _ Ht Hq), pages_cons. cbn zeta.
  rewrite Hitems, (scan_raise _ _ _ _ _ _ Hpre Hev).
  cbn [fst snd set_service set_log service log].
  split; [reflexivity |]. split; [reflexivity |].
  rewrite !examined_app, examined_chain_log, examined_map.
  change (examined [DiscoverCredentials]) with (@nil event).
  change (examined [ListEvents ?r]) with (@nil event).
  rewrite !app_nil_r, <- !app_assoc. reflexivity.
Qed.

Lemma check_is_live_requests (calendar_id : string) (m : Z) (w : world) :
  exists (time_min time_max : string) (toks : list (option string)),
    requests (log (snd (check_is_live calendar_id m w)))
    = (requests (log w)
       ++ map (list_request calendar_id time_min time_max) toks)%list.
Proof.
  assert (Hnone : requests (log (set_log (log w ++ [DiscoverCredentials]) w))
                  = requests (log w)).
  { cbn [set_log log]. rewrite requests_app. apply app_nil_r. }
  destruct (check_is_live_cases calendar_id m w)
    as [[_ H] | [[_ H] | [_ (tmin & tmax & H)]]]; rewrite H.
  - exists EmptyString, EmptyString, []. cbn [snd map].
    rewrite app_nil_r. exact Hnone.
  - exists EmptyString, EmptyString, []. cbn [snd map].
    rewrite app_nil_r. exact Hnone.
  - destruct (pages_requests (list_request calendar_id tmin tmax)
                {| wall := clock w; tzinfo := Some 0 |} (service w) None
                (set_log (log w ++ [DiscoverCredentials]) w)) as [toks Htoks].
    exists tmin, tmax, (None :: toks).
    rewrite Htoks, Hnone. reflexivity.
Qed.

(** X8. Whatever happens, every request [check_is_live] sends names the
    calendar it was given, asks for single events ordered by start time in
    pages of 50, and carries one and the same window; only the page token
    changes from a request to the next. *)
Theorem check_is_live_request_parameters (calendar_id : string) (m : Z)
    (w : world) :
  exists (time_min time_max : string) (toks : list (option string)),
    requests (log (snd (check_is_live calendar_id m w)))
    = (requests (log w)
       ++ map (list_request calendar_id time_min time_max) toks)%list
    /\ Forall (fun req =>
                 calendarId req = calendar_id
                 /\ singleEvents req = true
                 /\ orderBy req = "startTime"
                 /\ maxResults req = 50
                 /\ timeMin req = time_min
                 /\ timeMax req = time_max)
         (map (list_request calendar_id time_min time_max) toks).
Proof.
  destruct (check_is_live_requests calendar_id m w)
    as (tmin & tmax & toks & Hreq).
  exists tmin, tmax, toks. split; [exact Hreq |].
  apply List.Forall_forall. intros req Hin.
  apply in_map_iff in Hin as (tok & <- & _).
  cbn. split; [reflexivity |]. split; [reflexivity |]. split; [reflexivity |].
  split; [reflexivity |]. split; reflexivity.
Qed.

(** X9. A window that is not representable stops [check_is_live] with
    [OverflowError] right after the credential discovery: when now minus
    the lookback, or now plus one minute, is no [datetime], no request is
    sent and no answer of the backend is consumed. *)
Theorem check_is_live_window_overflow (calendar_id : string) (m : Z) (w : world) :
  credentials w = true ->
  in_datetime_range (clock w) = true ->
  window_ok (clock w) m = false ->
  check_is_live calendar_id m w
  = (Raise OverflowError, set_log (log w ++ [DiscoverCredentials]) w)
  /\ requests (log (snd (check_is_live calendar_id m w))) = requests (log w).
Proof.
  intros Hc Hnow Hw.
  assert (H : check_is_live calendar_id m w
              = (Raise OverflowError, set_log (log w ++ [DiscoverCredentials]) w)).
  { unfold window_ok in Hw. rewrite Hnow in Hw. cbn [andb] in Hw.
    unfold check_is_live, get_credentials, pending.
    unfold mbind, M_bind, emit, discover, datetime_now_utc, lift.
    cbn [set_log credentials clock service log]. rewrite Hc.
    unfold timedelta_minutes, datetime_sub, datetime_add, result_bind.
    cbn [wall tzinfo].
    change (clock (set_log (log w ++ [DiscoverCredentials]) w)) with (clock w).
    destruct ((Civil.MIN_DELTA <=? m * Civil.us_per_minute)
              && (m * Civil.us_per_minute <=? Civil.MAX_DELTA));
      [| reflexivity].
    destruct (in_datetime_range (clock w - m * Civil.us_per_minute));
      [| reflexivity].
    cbn [andb] in Hw.
    destruct ((Civil.MIN_DELTA <=? 1 * Civil.us_per_minute)
              && (1 * Civil.us_per_minute <=? Civil.MAX_DELTA));
      [| reflexivity].
    rewrite Hw. reflexivity. }
  split; [exact H |].
  rewrite H. cbn [snd set_log log]. rewrite requests_app. apply app_nil_r.
Qed.

(** *** More on the evaluator *)

(** X10. An event that ends at or before its own start is never live,
    whatever [now] is. *)
Theorem event_is_now_empty_interval (ev : event) (now : datetime) (s e : string)
    (ds de : datetime) :
  timestamp_of ev "start" = Some s ->
  timestamp_of ev "end" = Some e ->
  date_parser_parse s = Ok ds ->
  date_parser_parse e = Ok de ->
  in_datetime_range (utc_instant ds) = true ->
  in_datetime_range (utc_instant de) = true ->
  in_datetime_range (utc_instant now) = true ->
  utc_instant de <= utc_instant ds ->
  event_is_now ev now = Ok false.
Proof.
  intros Hs He Hps Hpe Hrs Hre Hrn Hle.
  rewrite (event_is_now_timestamps ev now s e Hs He).
  unfold parse_rfc3339. rewrite Hps, Hpe. simpl.
  rewrite !astimezone_utc_instant, Hrs, Hre, Hrn. simpl.
  f_equal. unfold datetime_le, datetime_lt. simpl.
  destruct (Z.leb_spec (utc_instant ds) (utc_instant now)) as [H1 | H1];
    [| reflexivity].
  apply Z.ltb_ge. lia.
Qed.

(** X11. A start with an offset (or, the start being fine, such an end)
    that parses but falls outside years 1 to 9999 once moved to UTC makes
    [event_is_now] raise [OverflowError] instead of answering. *)
Theorem event_is_now_normalisation_overflow (ev : event) (now : datetime)
    (s e : string) (ds : datetime) :
  timestamp_of ev "start" = Some s ->
  timestamp_of ev "end" = Some e ->
  date_parser_parse s = Ok ds ->
  (is_Some (tzinfo ds) ->
   in_datetime_range (utc_instant ds) = false ->
   event_is_now ev now = Raise OverflowError)
  /\ (forall de,
        in_datetime_range (utc_instant ds) = true ->
        date_parser_parse e = Ok de ->
        is_Some (tzinfo de) ->
        in_datetime_range (utc_instant de) = false ->
        event_is_now ev now = Raise OverflowError).
Proof.
  intros Hs He Hps.
  rewrite (event_is_now_timestamps ev now s e Hs He).
  unfold parse_rfc3339. rewrite Hps. simpl.
  rewrite !astimezone_utc_instant. split.
  - intros _ Hr. rewrite Hr. reflexivity.
  - intros de Hr Hpe _ Hre. rewrite Hr, Hpe. simpl.
    rewrite astimezone_utc_instant, Hre. reflexivity.
Qed.

(** *** More on the resolver and on [main] *)

Lemma resolve_world (sheet_key calendar_id_arg : option string)
    (path : string) (w : world) :
  snd (resolve_calendar_id sheet_key calendar_id_arg path w)
  = if negb (truthy calendar_id_arg) && truthy sheet_key
    then set_log (log w ++ [ReadFile path]) w
    else w.
Proof.
  destruct calendar_id_arg as [[| c0 cid] |];
    destruct sheet_key as [[| k0 key] |]; try reflexivity.
  - unfold resolve_calendar_id. cbv beta iota.
    rewrite bind_run, load_config_run. cbn zeta.
    destruct (files w !! path) as [[c |] |]; try reflexivity.
    destruct (negb _ || negb _); reflexivity.
  - unfold resolve_calendar_id. cbv beta iota.
    rewrite bind_run, load_config_run. cbn zeta.
    destruct (files w !! path) as [[c |] |]; try reflexivity.
    destruct (negb _ || negb _); reflexivity.
Qed.

Lemma main_run (a : args) (w : world) :
  main a w =
    match resolve_calendar_id (arg_sheet a) (arg_calendar_id a)
            (os_path_abspath w (arg_config a)) w with
    | (Ok calendar_id, w1) =>
        match check_is_live calendar_id (arg_lookback_minutes a) w1 with
        | (Ok is_live, w2) =>
            (Ok tt,
             set_log (log w2 ++ [Print (if is_live then "is live" else "is off")])
               w2)
        | (Raise x, w2) => (Raise x, w2)
        end
    | (Raise x, w1) => (Raise x, w1)
    end.
Proof.
  unfold main. rewrite bind_run. unfold abspath. rewrite bind_run.
  destruct (resolve_calendar_id _ _ _ w) as [[calendar_id | x] w1];
    [| reflexivity].
  rewrite bind_run.
  destruct (check_is_live calendar_id _ w1) as [[is_live | x] w2]; reflexivity.
Qed.

Lemma prints_app (l1 l2 : list io) :
  prints (l1 ++ l2) = (prints l1 ++ prints l2)%list.
Proof. apply omap_app. Qed.

Lemma prints_fetch (l : list io) : forallb is_fetch l = true -> prints l = [].
Proof.
  induction l as [| e l IH]; [reflexivity |].
  cbn [forallb]. intros H. apply andb_true_iff in H as [He H].
  destruct e; try discriminate; exact (IH H).
Qed.

Lemma check_is_live_prints (calendar_id : string) (m : Z) (w : world) :
  prints (log (snd (check_is_live calendar_id m w))) = prints (log w).
Proof.
  assert (Hlog : prints (log (set_log (log w ++ [DiscoverCredentials]) w))
                 = prints (log w)).
  { cbn [set_log log]. rewrite prints_app. apply app_nil_r. }
  destruct (check_is_live_cases calendar_id m w)
    as [[_ H] | [[_ H] | [_ (tmin & tmax & H)]]]; rewrite H;
    try exact Hlog.
  destruct (pages_log (list_request calendar_id tmin tmax)
              {| wall := clock w; tzinfo := Some 0 |} (service w) None
              (set_log (log w ++ [DiscoverCredentials]) w)) as (l & Hl & Hf).
  rewrite Hl, prints_app, (prints_fetch _ Hf), app_nil_r. exact Hlog.
Qed.

Lemma resolve_prints (sheet_key calendar_id_arg : option string)
    (path : string) (w : world) :
  prints (log (snd (resolve_calendar_id sheet_key calendar_id_arg path w)))
  = prints (log w).
Proof.
  rewrite resolve_world.
  destruct (negb (truthy calendar_id_arg) && truthy sheet_key); [| reflexivity].
  cbn [set_log log]. rewrite prints_app. apply app_nil_r.
Qed.

(** X12. The resolver touches the world in one way only: it reads the
    configuration file, once, exactly when it is given no identifier but a
    sheet key; it never goes to the network, and the backend's pending
    answers and the files are left as they were. *)
Theorem resolve_calendar_id_effects (sheet_key calendar_id_arg : option string)
    (path : string) (w : world) :
  reads (log (snd (resolve_calendar_id sheet_key calendar_id_arg path w)))
  = (reads (log w)
     ++ if negb (truthy calendar_id_arg) && truthy sheet_key
        then [path] else [])%list
  /\ network (log (snd (resolve_calendar_id sheet_key calendar_id_arg path w)))
     = network (log w)
  /\ service (snd (resolve_calendar_id sheet_key calendar_id_arg path w))
     = service w
  /\ files (snd (resolve_calendar_id sheet_key calendar_id_arg path w))
     = files w.
Proof.
  rewrite resolve_world.
  destruct (negb (truthy calendar_id_arg) && truthy sheet_key).
  - cbn [set_log log service files]. rewrite reads_app.
    unfold network. rewrite List.filter_app. cbn. rewrite app_nil_r. auto.
  - rewrite app_nil_r. auto.
Qed.

(** X13. Without an explicit identifier, a sheet key whose record in the
    ["sheets"] section holds a non-empty ["calendarId"] resolves to that
    identifier, at the cost of one read of the configuration file. *)
Theorem resolve_from_config (key : string) (calendar_id_arg : option string)
    (path : string) (c : config) (sheet_cfg : gmap string string)
    (calendar_id : string) (w : world) :
  truthy calendar_id_arg = false ->
  key <> EmptyString ->
  files w !! path = Some (Json c) ->
  default ∅ (c !! "sheets") !! key = Some sheet_cfg ->
  sheet_cfg !! "calendarId" = Some calendar_id ->
  calendar_id <> EmptyString ->
  resolve_calendar_id (Some key) calendar_id_arg path w
  = (Ok calendar_id, set_log (log w ++ [ReadFile path]) w).
Proof.
  intros Hid Hkey Hfile Hsheet Hcal Hne.
  assert (Hdict : dict_truthy (Some sheet_cfg) = true).
  { cbn. apply negb_true_iff, bool_decide_eq_false. intros ->.
    rewrite lookup_empty in Hcal. discriminate. }
  assert (Htruthy : truthy (Some calendar_id) = true).
  { destruct calendar_id; [contradiction | reflexivity]. }
  destruct key as [| k0 key']; [contradiction |].
  unfold resolve_calendar_id.
  destruct calendar_id_arg as [[| a s] |]; try discriminate Hid;
    cbv beta iota; rewrite bind_run, load_config_run, Hfile;
    cbv beta iota zeta;
    rewrite Hsheet, Hdict; cbn [mbind option_bind]; rewrite Hcal, Htruthy;
    cbn [negb orb default from_option id]; unfold lift, getitem;
    rewrite Hcal; reflexivity.
Qed.

(** X14. When the resolver returns an identifier, that identifier is not
    empty, and it is either the explicit one or the ["calendarId"] of the
    key's record in the configuration file that was read. *)
Theorem resolve_calendar_id_result (sheet_key calendar_id_arg : option string)
    (path calendar_id : string) (w : world) :
  fst (resolve_calendar_id sheet_key calendar_id_arg path w) = Ok calendar_id ->
  calendar_id <> EmptyString
  /\ (calendar_id_arg = Some calendar_id
      \/ (truthy calendar_id_arg = false
          /\ exists key c sheet_cfg,
               sheet_key = Some key
               /\ files w !! path = Some (Json c)
               /\ default ∅ (c !! "sheets") !! key = Some sheet_cfg
               /\ sheet_cfg !! "calendarId" = Some calendar_id)).
Proof.
  assert (Hkey : forall k0 key',
    fst (resolve_calendar_id (Some (String k0 key')) None path w)
    = Ok calendar_id ->
    calendar_id <> EmptyString
    /\ exists key c sheet_cfg,
         Some (String k0 key') = Some key
         /\ files w !! path = Some (Json c)
         /\ default ∅ (c !! "sheets") !! key = Some sheet_cfg
         /\ sheet_cfg !! "calendarId" = Some calendar_id).
  { intros k0 key'. unfold resolve_calendar_id. cbv beta iota.
    rewrite bind_run, load_config_run. cbn zeta.
    destruct (files w !! path) as [[c |] |]; try discriminate.
    destruct (default ∅ (c !! "sheets") !! String k0 key')
      as [sheet_cfg |] eqn:Hsheet; [| discriminate].
    destruct (negb (dict_truthy (Some sheet_cfg))); [discriminate |].
    cbn [orb mbind option_bind default from_option].
    unfold lift, getitem. change (id sheet_cfg) with sheet_cfg.
    destruct (sheet_cfg !! "calendarId") as [[| a s] |] eqn:Hcal;
      cbn; try discriminate.
    intros [= <-]. split; [discriminate |].
    exists (String k0 key'), c, sheet_cfg. auto. }
  destruct calendar_id_arg as [[| c0 cid] |].
  - destruct sheet_key as [[| k0 key'] |]; try discriminate.
    intros H. destruct (Hkey k0 key' H) as [Hne Hex].
    split; [exact Hne |]. right. split; [reflexivity | exact Hex].
  - cbn. intros [= <-]. split; [discriminate | left; reflexivity].
  - destruct sheet_key as [[| k0 key'] |]; try discriminate.
    intros H. destruct (Hkey k0 key' H) as [Hne Hex].
    split; [exact Hne |]. right. split; [reflexivity | exact Hex].
Qed.

(** X15. Without an explicit identifier and with a sheet key, a missing
    configuration file, or one that is not valid JSON, makes the resolver
    raise the file's error; the run of [main] ends there, before any
    credential discovery or request. *)
Theorem resolve_config_file_error (key : string) (calendar_id_arg : option string)
    (path : string) (w : world) :
  truthy calendar_id_arg = false ->
  key <> EmptyString ->
  (files w !! path = None ->
   resolve_calendar_id (Some key) calendar_id_arg path w
   = (Raise (FileNotFoundError path), set_log (log w ++ [ReadFile path]) w))
  /\ (files w !! path = Some Garbage ->
      resolve_calendar_id (Some key) calendar_id_arg path w
      = (Raise (JSONDecodeError path), set_log (log w ++ [ReadFile path]) w))
  /\ (forall a : args,
        arg_sheet a = Some key ->
        arg_calendar_id a = calendar_id_arg ->
        os_path_abspath w (arg_config a) = path ->
        files w !! path = None \/ files w !! path = Some Garbage ->
        exists x,
          main a w = (Raise x, set_log (log w ++ [ReadFile path]) w)
          /\ (x = FileNotFoundError path \/ x = JSONDecodeError path)).
Proof.
  intros Hid Hkey.
  destruct key as [| k0 key']; [contradiction |].
  assert (Hrun : resolve_calendar_id (Some (String k0 key')) calendar_id_arg path w
    = match files w !! path with
      | Some (Json c) =>
          resolve_calendar_id (Some (String k0 key')) calendar_id_arg path w
      | Some Garbage =>
          (Raise (JSONDecodeError path), set_log (log w ++ [ReadFile path]) w)
      | None =>
          (Raise (FileNotFoundError path), set_log (log w ++ [ReadFile path]) w)
      end).
  { destruct (files w !! path) as [[c |] |] eqn:Hfile; [reflexivity | |];
      unfold resolve_calendar_id;
      destruct calendar_id_arg as [[| a s] |]; try discriminate Hid;
      cbv beta iota; rewrite bind_run, load_config_run, Hfile; reflexivity. }
  split; [| split].
  - intros Hfile. rewrite Hrun, Hfile. reflexivity.
  - intros Hfile. rewrite Hrun, Hfile. reflexivity.
  - intros a Hsheet Harg Hpath Hfile.
    rewrite main_run, Hsheet, Harg, Hpath, Hrun.
    destruct Hfile as [-> | ->]; eexists; (split; [reflexivity |]); auto.
Qed.

(** X16. A run of [main] that ends in an error prints nothing. *)
Theorem main_silent_on_error (a : args) (w : world) (x : exn) :
  fst (main a w) = Raise x ->
  prints (log (snd (main a w))) = prints (log w).
Proof.
  rewrite main_run.
  pose proof (resolve_prints (arg_sheet a) (arg_calendar_id a)
                (os_path_abspath w (arg_config a)) w) as Hres.
  destruct (resolve_calendar_id _ _ _ w) as [[calendar_id | x1] w1];
    cbn [snd] in Hres; [| intros _; exact Hres].
  pose proof (check_is_live_prints calendar_id (arg_lookback_minutes a) w1)
    as Hchk.
  destruct (check_is_live calendar_id _ w1) as [[is_live | x2] w2];
    cbn [fst snd] in *; [discriminate |].
  intros _. rewrite Hchk. exact Hres.
Qed.

(** X17. A run of [main] that succeeds prints exactly one line, the
    verdict of [check_is_live] on the resolved calendar: "is live" for
    true and "is off" for false. *)
Theorem main_prints_verdict (a : args) (w : world) :
  fst (main a w) = Ok tt ->
  exists calendar_id w1 is_live w2,
    resolve_calendar_id (arg_sheet a) (arg_calendar_id a)
      (os_path_abspath w (arg_config a)) w = (Ok calendar_id, w1)
    /\ check_is_live calendar_id (arg_lookback_minutes a) w1 = (Ok is_live, w2)
    /\ prints (log (snd (main a w)))
       = (prints (log w) ++ [if is_live : bool then "is live" else "is off"])%list.
Proof.
  rewrite main_run.
  pose proof (resolve_prints (arg_sheet a) (arg_calendar_id a)
                (os_path_abspath w (arg_config a)) w) as Hres.
  destruct (resolve_calendar_id _ _ _ w) as [[calendar_id | x1] w1];
    cbn [snd] in Hres; [| discriminate].
  pose proof (check_is_live_prints calendar_id (arg_lookback_minutes a) w1)
    as Hchk.
  destruct (check_is_live calendar_id _ w1) as [[is_live | x2] w2] eqn:Hrun;
    cbn [fst snd] in *; [| discriminate].
  intros _. exists calendar_id, w1, is_live, w2.
  split; [reflexivity |]. split; [exact Hrun |].
  cbn [set_log log]. rewrite prints_app, Hchk, Hres. reflexivity.
Qed.

(** X18. Every request a run of [main] sends is for the calendar the
    resolver returned; when the resolver fails, none is sent. *)
Theorem main_queries_resolved_calendar (a : args) (w : world) :
  match fst (resolve_calendar_id (arg_sheet a) (arg_calendar_id a)
               (os_path_abspath w (arg_config a)) w) with
  | Ok calendar_id =>
      exists time_min time_max toks,
        requests (log (snd (main a w)))
        = (requests (log w)
           ++ map (list_request calendar_id time_min time_max) toks)%list
  | Raise _ => requests (log (snd (main a w))) = requests (log w)
  end.
Proof.
  rewrite main_run.
  pose proof (resolve_world (arg_sheet a) (arg_calendar_id a)
                (os_path_abspath w (arg_config a)) w) as Hres.
  assert (Hreq : requests (log (snd (resolve_calendar_id (arg_sheet a)
                   (arg_calendar_id a) (os_path_abspath w (arg_config a)) w)))
                 = requests (log w)).
  { rewrite Hres.
    destruct (negb (truthy (arg_calendar_id a)) && truthy (arg_sheet a));
      [| reflexivity].
    cbn [set_log log]. rewrite requests_app. apply app_nil_r. }
  clear Hres.
  destruct (resolve_calendar_id _ _ _ w) as [[calendar_id | x1] w1];
    cbn [fst snd] in *; [| exact Hreq].
  destruct (check_is_live_requests calendar_id (arg_lookback_minutes a) w1)
    as (tmin & tmax & toks & Htoks).
  exists tmin, tmax, toks.
  destruct (check_is_live calendar_id _ w1) as [[is_live | x2] w2];
    cbn [snd] in *.
  - cbn [set_log log]. rewrite requests_app, Htoks, Hreq.
    cbn [requests omap]. rewrite app_nil_r. reflexivity.
  - rewrite Htoks, Hreq. reflexivity.
Qed.

End IsLive.

(** ** Worked examples

    The theorems above at concrete inputs, with [Rfc3339.parse] as the
    timestamp reader. *)

(** The end-to-end scenario of the specification: calendar ["cal123"] at
    noon with one event from 11:30 to 12:30 prints "is live"; with the
    event ending at noon sharp it prints "is off". *)
Example main_prints_is_live :
  let run := main Rfc3339.parse Sample.utc (Sample.command (Some "cal123") None)
               (Sample.world_with [Ok (Sample.page [Sample.around_noon] None)]) in
  fst run = Ok tt /\ last (log (snd run)) = Some (Print "is live").
Proof. vm_compute. split; reflexivity. Qed.

Example main_prints_is_off :
  let run := main Rfc3339.parse Sample.utc (Sample.command (Some "cal123") None)
               (Sample.world_with [Ok (Sample.page [Sample.until_noon] None)]) in
  fst run = Ok tt /\ last (log (snd run)) = Some (Print "is off").
Proof. vm_compute. split; reflexivity. Qed.

(** The window of the default lookback, as sent to the backend. *)
Example default_window_at_noon :
  requests (log (snd (check_is_live Rfc3339.parse Sample.utc "cal123" 720
                        (Sample.world_with [Ok (Sample.page [] None)]))))
  = [ {| calendarId := "cal123";
         timeMin := "2024-01-01T00:00:00+00:00";
         timeMax := "2024-01-01T12:01:00+00:00";
         singleEvents := true;
         orderBy := "startTime";
         maxResults := 50;
         pageToken := None |} ].
Proof. vm_compute. reflexivity. Qed.

Lemma event_is_now_half_open_witness :
  event_is_now Rfc3339.parse Sample.utc Sample.ten_to_eleven Sample.at_10_59 = Ok true
  /\ event_is_now Rfc3339.parse Sample.utc Sample.ten_to_eleven Sample.at_11_00 = Ok false
  /\ event_is_now Rfc3339.parse Sample.utc Sample.ten_to_eleven Sample.at_10_00 = Ok true.
Proof.
  split; [| split].
  - destruct (event_is_now_half_open Rfc3339.parse Sample.utc
                Sample.ten_to_eleven Sample.at_10_59
                "2024-01-01T10:00:00Z" "2024-01-01T11:00:00Z"
                {| wall := 1704103200000000; tzinfo := Some 0 |}
                {| wall := 1704106800000000; tzinfo := Some 0 |})
      as (b & Hb & Hiff & _).
    1-7: vm_compute; reflexivity.
    rewrite Hb. f_equal. apply Hiff.
    unfold utc_instant, Sample.utc. cbn [wall tzinfo from_option id Sample.at_10_59].
    lia.
  - destruct (event_is_now_half_open Rfc3339.parse Sample.utc
                Sample.ten_to_eleven Sample.at_11_00
                "2024-01-01T10:00:00Z" "2024-01-01T11:00:00Z"
                {| wall := 1704103200000000; tzinfo := Some 0 |}
                {| wall := 1704106800000000; tzinfo := Some 0 |})
      as (b & Hb & _ & Hend & _).
    1-7: vm_compute; reflexivity.
    rewrite Hb. f_equal. apply Hend. vm_compute. reflexivity.
  - destruct (event_is_now_half_open Rfc3339.parse Sample.utc
                Sample.ten_to_eleven Sample.at_10_00
                "2024-01-01T10:00:00Z" "2024-01-01T11:00:00Z"
                {| wall := 1704103200000000; tzinfo := Some 0 |}
                {| wall := 1704106800000000; tzinfo := Some 0 |})
      as (b & Hb & _ & _ & Hstart).
    1-7: vm_compute; reflexivity.
    rewrite Hb. f_equal. apply Hstart; vm_compute; reflexivity.
Defined.

Lemma event_is_now_ineligible_witness :
  event_is_now Rfc3339.parse Sample.utc Sample.new_year Sample.noon = Ok false
  /\ event_is_now Rfc3339.parse Sample.utc Sample.marked Sample.noon = Ok false.
Proof.
  split; apply event_is_now_ineligible; left;
    exists "2024-01-01"; (split; [vm_compute; reflexivity | discriminate]).
Defined.

Lemma event_is_now_zone_invariant_witness :
  event_is_now Rfc3339.parse Sample.utc Sample.around_noon_east Sample.noon
  = event_is_now Rfc3339.parse Sample.utc Sample.around_noon_west Sample.noon.
Proof.
  apply (event_is_now_zone_invariant Rfc3339.parse Sample.utc
           Sample.around_noon_east Sample.around_noon_west Sample.noon Sample.noon
           "2024-01-01T13:30:00+02:00" "2024-01-01T14:30:00+02:00"
           "2024-01-01T06:30:00-05:00" "2024-01-01T07:30:00-05:00"
           {| wall := 1704115800000000; tzinfo := Some 7200000000 |}
           {| wall := 1704119400000000; tzinfo := Some 7200000000 |}
           {| wall := 1704090600000000; tzinfo := Some (-18000000000) |}
           {| wall := 1704094200000000; tzinfo := Some (-18000000000) |});
    vm_compute; reflexivity.
Defined.

Lemma event_is_now_unparseable_witness :
  event_is_now Rfc3339.parse Sample.utc Sample.unreadable Sample.noon
  = Raise (ParserError "soon").
Proof.
  apply (event_is_now_unparseable Rfc3339.parse Sample.utc Sample.unreadable
           Sample.noon "soon" "later"); vm_compute; reflexivity.
Defined.

Lemma check_is_live_pagination_complete_witness :
  fst (check_is_live Rfc3339.parse Sample.utc "cal123" 720
         (Sample.world_with (map Ok Sample.three_pages))) = Ok false
  /\ length (requests (log (snd (check_is_live Rfc3339.parse Sample.utc "cal123" 720
               (Sample.world_with (map Ok Sample.three_pages)))))) = 3%nat
  /\ length (examined (log (snd (check_is_live Rfc3339.parse Sample.utc "cal123" 720
               (Sample.world_with (map Ok Sample.three_pages)))))) = 107%nat.
Proof.
  destruct (check_is_live_pagination_complete Rfc3339.parse Sample.utc "cal123" 720
              (Sample.world_with (map Ok Sample.three_pages))
              Sample.three_pages [])
    as (Hres & _ & Hreq & Hex).
  - reflexivity.
  - vm_compute. reflexivity.
  - symmetry. apply app_nil_r.
  - reflexivity.
  - vm_compute. reflexivity.
  - split; [exact Hres |]. split.
    + rewrite Hreq. reflexivity.
    + rewrite Hex. reflexivity.
Defined.

Lemma check_is_live_short_circuit_witness :
  fst (check_is_live Rfc3339.parse Sample.utc "cal123" 720
         (Sample.world_with Sample.two_pages)) = Ok true
  /\ service (snd (check_is_live Rfc3339.parse Sample.utc "cal123" 720
                     (Sample.world_with Sample.two_pages)))
     = [Ok Sample.second_page]
  /\ length (requests (log (snd (check_is_live Rfc3339.parse Sample.utc "cal123" 720
                                  (Sample.world_with Sample.two_pages))))) = 1%nat.
Proof.
  destruct (check_is_live_short_circuit Rfc3339.parse Sample.utc "cal123" 720
              (Sample.world_with Sample.two_pages)
              [] Sample.first_page
              [Sample.new_year] [Sample.until_noon] Sample.around_noon
              [Ok Sample.second_page])
    as (Hres & Hserv & Hreq & _).
  - reflexivity.
  - vm_compute. reflexivity.
  - reflexivity.
  - reflexivity.
  - reflexivity.
  - reflexivity.
  - vm_compute. reflexivity.
  - vm_compute. reflexivity.
  - split; [exact Hres |]. split; [exact Hserv |].
    rewrite Hreq. reflexivity.
Defined.

Lemma check_is_live_query_window_witness :
  exists toks : list (option string),
    map (fun req => (timeMin req, timeMax req))
      (requests (log (snd (check_is_live Rfc3339.parse Sample.utc "cal123" 720
                             (Sample.world_with [])))))
    = map (fun _ => ("2024-01-01T00:00:00+00:00", "2024-01-01T12:01:00+00:00"))
        (None :: toks).
Proof.
  destruct (check_is_live_query_window Rfc3339.parse Sample.utc "cal123" 720
              (Sample.world_with []))
    as (toks & Hreq & _); [reflexivity | vm_compute; reflexivity |].
  exists toks. rewrite Hreq.
  change (requests (log (Sample.world_with []))) with (@nil request).
  cbn [app]. rewrite List.map_map. apply List.map_ext.
  intros tok. vm_compute. reflexivity.
Defined.

(** C8, as the specification states it, fails for a lookback that reaches
    before year 1: two thousand million minutes before noon of 2024-01-01
    is not a [datetime], so the run raises [OverflowError] while building
    the window and no request is ever sent. *)
Lemma check_is_live_lookback_overflow :
  credentials (Sample.world_with []) = true
  /\ fst (check_is_live Rfc3339.parse Sample.utc "cal123" 2000000000
            (Sample.world_with []))
     = Raise OverflowError
  /\ requests (log (snd (check_is_live Rfc3339.parse Sample.utc "cal123" 2000000000
                           (Sample.world_with [])))) = []
  /\ ~ exists toks : list (option string),
         requests (log (snd (check_is_live Rfc3339.parse Sample.utc "cal123"
                                2000000000 (Sample.world_with []))))
         = (requests (log (Sample.world_with []))
            ++ map (window_request "cal123" (clock (Sample.world_with []))
                      2000000000)
                 (None :: toks))%list.
Proof.
  assert (Hreq : requests (log (snd (check_is_live Rfc3339.parse Sample.utc "cal123"
                    2000000000 (Sample.world_with [])))) = [])
    by (vm_compute; reflexivity).
  split; [reflexivity |]. split; [vm_compute; reflexivity |].
  split; [exact Hreq |].
  intros [toks Htoks]. rewrite Hreq in Htoks. discriminate Htoks.
Qed.

Lemma resolve_explicit_identifier_witness :
  resolve_calendar_id (Some "A") (Some "cal123") "/srv/scheduler/config.json"
    (Sample.world_with [])
  = (Ok "cal123", Sample.world_with []).
Proof.
  apply (resolve_explicit_identifier Rfc3339.parse Sample.utc (Some "A") "cal123"
           "/srv/scheduler/config.json" (Sample.world_with [])).
  discriminate.
Defined.

Lemma resolve_unknown_sheet_witness :
  main Rfc3339.parse Sample.utc (Sample.command None (Some "B")) (Sample.world_with [])
  = (Raise (SystemExit
       "calendarId not found for sheet B in /srv/scheduler/config.json"),
     set_log [ReadFile "/srv/scheduler/config.json"] (Sample.world_with [])).
Proof.
  destruct (resolve_unknown_sheet Rfc3339.parse Sample.utc "B" None
              "/srv/scheduler/config.json" Sample.sheets_config
              (Sample.world_with []))
    as (_ & _ & Hmain).
  - reflexivity.
  - discriminate.
  - vm_compute. reflexivity.
  - right. exists {[ "tab" := "Sheet B" ]}.
    split; [vm_compute; reflexivity | left; vm_compute; reflexivity].
  - apply (Hmain (Sample.command None (Some "B"))); reflexivity.
Defined.

Lemma resolve_empty_identifier_witness :
  resolve_calendar_id None (Some EmptyString) "/srv/scheduler/config.json" (Sample.world_with [])
  = (Raise (SystemExit "either --calendar-id or --sheet must be provided"),
     Sample.world_with [])
  /\ snd (resolve_calendar_id (Some "A") (Some EmptyString) "/srv/scheduler/config.json"
            (Sample.world_with []))
     = set_log [ReadFile "/srv/scheduler/config.json"] (Sample.world_with []).
Proof.
  split.
  - apply (resolve_empty_identifier None "/srv/scheduler/config.json"
             (Sample.world_with [])). reflexivity.
  - apply (resolve_empty_identifier (Some "A") "/srv/scheduler/config.json"
             (Sample.world_with [])). reflexivity.
Defined.

(** ** Worked examples for the further properties *)

Lemma check_is_live_true_has_live_event_witness :
  exists seen ev,
    examined (log (snd (check_is_live Rfc3339.parse Sample.utc "cal123" 720
                          (Sample.world_with Sample.two_pages))))
    = (seen ++ [ev])%list
    /\ event_is_now Rfc3339.parse Sample.utc ev Sample.noon = Ok true.
Proof.
  destruct (check_is_live_true_has_live_event Rfc3339.parse Sample.utc "cal123"
              720 (Sample.world_with Sample.two_pages))
    as (seen & ev & Hex & _ & Hlive).
  - vm_compute. reflexivity.
  - exists seen, ev. split; [exact Hex | exact Hlive].
Defined.

Lemma check_is_live_false_read_everything_witness :
  exists ps : list response,
    chained ps = true
    /\ length (examined (log (snd (check_is_live Rfc3339.parse Sample.utc "cal123"
                   720 (Sample.world_with (map Ok Sample.three_pages))))))
       = length (concat (map page_items ps)).
Proof.
  destruct (check_is_live_false_read_everything Rfc3339.parse Sample.utc "cal123"
              720 (Sample.world_with (map Ok Sample.three_pages)))
    as (ps & _ & Hc & _ & Hex).
  - vm_compute. reflexivity.
  - exists ps. split; [exact Hc |]. rewrite Hex. reflexivity.
Defined.

Lemma check_is_live_decides_witness :
  fst (check_is_live Rfc3339.parse Sample.utc "cal123" 720
         (Sample.world_with (map Ok Sample.late_hit))) = Ok true.
Proof.
  rewrite (check_is_live_decides Rfc3339.parse Sample.utc "cal123" 720
             (Sample.world_with (map Ok Sample.late_hit)) Sample.late_hit []).
  - vm_compute. reflexivity.
  - reflexivity.
  - vm_compute. reflexivity.
  - symmetry. apply app_nil_r.
  - reflexivity.
  - vm_compute. reflexivity.
Defined.

Lemma check_is_live_order_independent_witness :
  fst (check_is_live Rfc3339.parse Sample.utc "cal123" 720
         (Sample.world_with (map Ok Sample.late_hit)))
  = fst (check_is_live Rfc3339.parse Sample.utc "cal123" 720
           (Sample.world_with (map Ok Sample.one_page))).
Proof.
  apply (check_is_live_order_independent Rfc3339.parse Sample.utc "cal123" 720
           (Sample.world_with (map Ok Sample.late_hit))
           (Sample.world_with (map Ok Sample.one_page))
           Sample.late_hit Sample.one_page [] []).
  - reflexivity.
  - reflexivity.
  - reflexivity.
  - vm_compute. reflexivity.
  - symmetry. apply app_nil_r.
  - symmetry. apply app_nil_r.
  - reflexivity.
  - reflexivity.
  - vm_compute. reflexivity.
  - apply Permutation_sym.
    apply (Permutation_cons_append [Sample.new_year; Sample.until_noon]
             Sample.around_noon).
Defined.

Lemma check_is_live_without_credentials_witness :
  main Rfc3339.parse Sample.utc (Sample.command (Some "cal123") None)
    Sample.without_credentials
  = (Raise DefaultCredentialsError,
     set_log [DiscoverCredentials] Sample.without_credentials).
Proof.
  destruct (check_is_live_without_credentials Rfc3339.parse Sample.utc "cal123"
              720 Sample.without_credentials) as (_ & _ & Hmain).
  - reflexivity.
  - apply (Hmain (Sample.command (Some "cal123") None));
      [reflexivity | discriminate | reflexivity].
Defined.

Lemma check_is_live_transport_failure_witness :
  fst (check_is_live Rfc3339.parse Sample.utc "cal123" 720
         (Sample.world_with Sample.failing_script)) = Raise HttpError
  /\ service (snd (check_is_live Rfc3339.parse Sample.utc "cal123" 720
                     (Sample.world_with Sample.failing_script)))
     = [Ok (Sample.page [Sample.around_noon] None)].
Proof.
  destruct (check_is_live_transport_failure Rfc3339.parse Sample.utc "cal123" 720
              (Sample.world_with Sample.failing_script)
              [Sample.page [Sample.new_year; Sample.until_noon] (Some "page-2")]
              HttpError [Ok (Sample.page [Sample.around_noon] None)])
    as (Hres & Hserv & _).
  - reflexivity.
  - vm_compute. reflexivity.
  - reflexivity.
  - reflexivity.
  - vm_compute. reflexivity.
  - split; [exact Hres | exact Hserv].
Defined.

Lemma check_is_live_evaluator_failure_witness :
  fst (check_is_live Rfc3339.parse Sample.utc "cal123" 720
         (Sample.world_with Sample.faulty_script))
  = Raise (ParserError "soon").
Proof.
  destruct (check_is_live_evaluator_failure Rfc3339.parse Sample.utc "cal123" 720
              (Sample.world_with Sample.faulty_script) []
              (Sample.page [Sample.new_year; Sample.unreadable; Sample.around_noon]
                 None)
              [Sample.new_year] [Sample.around_noon] Sample.unreadable
              (ParserError "soon") [])
    as (Hres & _).
  - reflexivity.
  - vm_compute. reflexivity.
  - reflexivity.
  - reflexivity.
  - reflexivity.
  - reflexivity.
  - vm_compute. reflexivity.
  - vm_compute. reflexivity.
  - exact Hres.
Defined.

Lemma check_is_live_window_overflow_witness :
  check_is_live Rfc3339.parse Sample.utc "cal123" 2000000000
    (Sample.world_with Sample.two_pages)
  = (Raise OverflowError,
     set_log [DiscoverCredentials] (Sample.world_with Sample.two_pages)).
Proof.
  apply (check_is_live_window_overflow Rfc3339.parse Sample.utc "cal123"
           2000000000 (Sample.world_with Sample.two_pages)).
  - reflexivity.
  - vm_compute. reflexivity.
  - vm_compute. reflexivity.
Defined.

Lemma event_is_now_empty_interval_witness :
  event_is_now Rfc3339.parse Sample.utc Sample.backwards Sample.noon = Ok false.
Proof.
  apply (event_is_now_empty_interval Rfc3339.parse Sample.utc Sample.backwards
           Sample.noon "2024-01-01T12:30:00Z" "2024-01-01T11:30:00Z"
           {| wall := 1704112200000000; tzinfo := Some 0 |}
           {| wall := 1704108600000000; tzinfo := Some 0 |});
    try (vm_compute; reflexivity).
  vm_compute. discriminate.
Defined.

Lemma event_is_now_normalisation_overflow_witness :
  event_is_now Rfc3339.parse Sample.utc Sample.dawn Sample.noon
  = Raise OverflowError.
Proof.
  apply (event_is_now_normalisation_overflow Rfc3339.parse Sample.utc
           Sample.dawn Sample.noon "0001-01-01T00:00:00+05:00"
           "2024-01-01T12:30:00Z"
           {| wall := -62135596800000000; tzinfo := Some 18000000000 |});
    try (vm_compute; reflexivity).
  eexists. reflexivity.
Defined.

Lemma resolve_from_config_witness :
  resolve_calendar_id (Some "A") None "/srv/scheduler/config.json"
    (Sample.world_with [])
  = (Ok "sheet-a@example.org",
     set_log [ReadFile "/srv/scheduler/config.json"] (Sample.world_with [])).
Proof.
  apply (resolve_from_config "A" None "/srv/scheduler/config.json"
           Sample.sheets_config {[ "calendarId" := "sheet-a@example.org" ]}
           "sheet-a@example.org" (Sample.world_with []));
    try discriminate; vm_compute; reflexivity.
Defined.

Lemma resolve_calendar_id_result_witness :
  "sheet-a@example.org" <> EmptyString
  /\ (@None string = Some "sheet-a@example.org"
      \/ (truthy None = false
          /\ exists key c sheet_cfg,
               Some "A" = Some key
               /\ files (Sample.world_with []) !! "/srv/scheduler/config.json"
                  = Some (Json c)
               /\ default ∅ (c !! "sheets") !! key = Some sheet_cfg
               /\ sheet_cfg !! "calendarId" = Some "sheet-a@example.org")).
Proof.
  apply (resolve_calendar_id_result (Some "A") None "/srv/scheduler/config.json"
           "sheet-a@example.org" (Sample.world_with [])).
  vm_compute. reflexivity.
Defined.

Lemma resolve_config_file_error_witness :
  resolve_calendar_id (Some "A") None "/srv/scheduler/missing.json"
    (Sample.world_with [])
  = (Raise (FileNotFoundError "/srv/scheduler/missing.json"),
     set_log [ReadFile "/srv/scheduler/missing.json"] (Sample.world_with []))
  /\ resolve_calendar_id (Some "A") None "/srv/scheduler/config.json"
       Sample.with_broken_config
     = (Raise (JSONDecodeError "/srv/scheduler/config.json"),
        set_log [ReadFile "/srv/scheduler/config.json"] Sample.with_broken_config).
Proof.
  split.
  - apply (resolve_config_file_error Rfc3339.parse Sample.utc "A" None
             "/srv/scheduler/missing.json" (Sample.world_with []));
      [reflexivity | discriminate | vm_compute; reflexivity].
  - apply (resolve_config_file_error Rfc3339.parse Sample.utc "A" None
             "/srv/scheduler/config.json" Sample.with_broken_config);
      [reflexivity | discriminate | vm_compute; reflexivity].
Defined.

Lemma main_silent_on_error_witness :
  prints (log (snd (main Rfc3339.parse Sample.utc (Sample.command None (Some "B"))
                      (Sample.world_with Sample.two_pages)))) = [].
Proof.
  apply (main_silent_on_error Rfc3339.parse Sample.utc
           (Sample.command None (Some "B")) (Sample.world_with Sample.two_pages)
           (SystemExit
              "calendarId not found for sheet B in /srv/scheduler/config.json")).
  vm_compute. reflexivity.
Defined.

Lemma main_prints_verdict_witness :
  exists is_live : bool,
    prints (log (snd (main Rfc3339.parse Sample.utc
                        (Sample.command (Some "cal123") None)
                        (Sample.world_with Sample.two_pages))))
    = [if is_live then "is live" else "is off"].
Proof.
  destruct (main_prints_verdict Rfc3339.parse Sample.utc
              (Sample.command (Some "cal123") None)
              (Sample.world_with Sample.two_pages))
    as (calendar_id & w1 & is_live & w2 & _ & _ & Hprints).
  - vm_compute. reflexivity.
  - exists is_live. exact Hprints.
Defined.
